(** * OM1 system setup dashboard: the polling and network-selection logic

    A shallow embedding of the two React components of the dashboard front
    end, [StatusPanel.jsx] and [WiFiStatus.jsx]:

    - every [useState] cell of a component is a field of a record, and
      every setter is an absolute write of that field;
    - every asynchronous handler is a computation in a small state and
      trace monad: it threads the component state and appends the effects
      the handler performs (HTTP requests, [console.error], [alert]);
    - the outcome of an awaited HTTP request is an argument of the handler:
      the promise is either rejected (a transport failure, caught by the
      handler's [catch]) or resolved with a response body;
    - [setInterval] and [clearInterval] are modelled by a millisecond
      clock with a timer table (module [EventLoop]). *)

From Stdlib Require Import String ZArith List Bool Lia.
From Stdlib Require QArith Qround DecimalString Lqa.
Import ListNotations.
Open Scope string_scope.

(** ** Effects and HTTP outcomes *)

(** What a handler does to the outside world, in program order. *)
Inductive Event : Type :=
| HttpGet (url : string)
| HttpPost (url : string) (ssid password : string)
| ConsoleError (label error : string)
| Alert (text : string).

(** An awaited axios promise: rejected with an error, or resolved with
    the body found in [response.data]. *)
Inductive Outcome (B : Type) : Type :=
| Rejected (error : string)
| Resolved (body : B).
Arguments Rejected {B} error.
Arguments Resolved {B} body.

(** Body of the three GET end points, [{success, data}]. The two status
    end points are read at [D := option _]: their state cells start at
    [null], and a body without [data] stores an [undefined] that every
    later read treats the same way. *)
Record GetBody (D : Type) : Type := mkGetBody {
  success : bool;
  data : D
}.
Arguments mkGetBody {D} success data.
Arguments success {D} g.
Arguments data {D} g.

(** Body of the connect end point, [{success, message?}]. *)
Record ConnectBody : Type := mkConnectBody {
  connect_success : bool;
  message : option string
}.

Definition API_BASE : string := "/api".

(** ** The state and trace monad of the handlers *)

Definition Eff (S A : Type) : Type := S -> A * S * list Event.

Definition ret {S A} (a : A) : Eff S A := fun s => (a, s, []).

Definition bind {S A B} (m : Eff S A) (k : A -> Eff S B) : Eff S B :=
  fun s =>
    let '(a, s1, t1) := m s in
    let '(b, s2, t2) := k a s1 in
    (b, s2, (t1 ++ t2)%list).

Definition emit {S} (e : Event) : Eff S unit := fun s => (tt, s, [e]).

Definition modify {S} (f : S -> S) : Eff S unit := fun s => (tt, f s, []).

Definition gets {S A} (f : S -> A) : Eff S A := fun s => (f s, s, []).

Notation "m1 ;; m2" := (bind m1 (fun _ => m2))
  (at level 61, right associativity).
Notation "x <- m1 ;; m2" := (bind m1 (fun x => m2))
  (at level 61, m1 at next level, right associativity).

Definition final_state {S A} (r : A * S * list Event) : S := snd (fst r).
Definition trace {S A} (r : A * S * list Event) : list Event := snd r.

(** JavaScript's [m || fallback] on an optional string: the empty string
    is falsy, like a missing one. *)
Definition or_else (m : option string) (fallback : string) : string :=
  match m with
  | Some "" => fallback
  | Some text => text
  | None => fallback
  end.

(** A request failed: the promise was rejected, or the body says
    [success:false]. *)
Definition failed {D} (r : Outcome (GetBody D)) : Prop :=
  match r with
  | Rejected _ => True
  | Resolved body => success body = false
  end.

Definition isAlert (e : Event) : bool :=
  match e with Alert _ => true | _ => false end.

Definition isConsoleError (e : Event) : bool :=
  match e with ConsoleError _ _ => true | _ => false end.

(** Every handler run is a function of the state it starts from; on a
    record the computation unfolds completely. *)
Ltac run_handler s :=
  destruct s; cbn in *; subst; cbn; try reflexivity.

(** What a GET handler stores: the data of a response with
    [success:true], and otherwise what was stored before. *)
Definition fetched {D} (r : Outcome (GetBody D)) (current : D) : D :=
  match r with
  | Resolved body => if success body then data body else current
  | Rejected _ => current
  end.

Definition isGet (e : Event) : bool :=
  match e with HttpGet _ => true | _ => false end.

Module WiFi.

(** ** WiFiStatus.jsx *)

Record WiFiStatusData : Type := mkWiFiStatusData {
  ws_connected : bool;
  ws_ssid : option string
}.

Record NetworkEntry : Type := mkNetworkEntry {
  ssid : string;
  signal : Z;
  security : string;
  connected : bool
}.

(** The nine [useState] cells of the component. *)
Record State : Type := mkState {
  wifiStatus : option WiFiStatusData;
  networks : list NetworkEntry;
  initialLoading : bool;
  loading : bool;
  scanning : bool;
  showNetworkList : bool;
  connecting : bool;
  selectedNetwork : option NetworkEntry;
  password : string
}.

(** The state of the first render. *)
Definition initial : State :=
  mkState None [] true false false false false None "".

Definition setWifiStatus (v : option WiFiStatusData) : Eff State unit :=
  modify (fun s => mkState v (networks s) (initialLoading s) (loading s)
    (scanning s) (showNetworkList s) (connecting s) (selectedNetwork s)
    (password s)).

Definition setNetworks (v : list NetworkEntry) : Eff State unit :=
  modify (fun s => mkState (wifiStatus s) v (initialLoading s) (loading s)
    (scanning s) (showNetworkList s) (connecting s) (selectedNetwork s)
    (password s)).

Definition setInitialLoading (v : bool) : Eff State unit :=
  modify (fun s => mkState (wifiStatus s) (networks s) v (loading s)
    (scanning s) (showNetworkList s) (connecting s) (selectedNetwork s)
    (password s)).

Definition setScanning (v : bool) : Eff State unit :=
  modify (fun s => mkState (wifiStatus s) (networks s) (initialLoading s)
    (loading s) v (showNetworkList s) (connecting s) (selectedNetwork s)
    (password s)).

Definition setShowNetworkList (v : bool) : Eff State unit :=
  modify (fun s => mkState (wifiStatus s) (networks s) (initialLoading s)
    (loading s) (scanning s) v (connecting s) (selectedNetwork s)
    (password s)).

Definition setConnecting (v : bool) : Eff State unit :=
  modify (fun s => mkState (wifiStatus s) (networks s) (initialLoading s)
    (loading s) (scanning s) (showNetworkList s) v (selectedNetwork s)
    (password s)).

Definition setSelectedNetwork (v : option NetworkEntry) : Eff State unit :=
  modify (fun s => mkState (wifiStatus s) (networks s) (initialLoading s)
    (loading s) (scanning s) (showNetworkList s) (connecting s) v
    (password s)).

Definition setPassword (v : string) : Eff State unit :=
  modify (fun s => mkState (wifiStatus s) (networks s) (initialLoading s)
    (loading s) (scanning s) (showNetworkList s) (connecting s)
    (selectedNetwork s) v).

(** [fetchWiFiStatus]: the [try] body stores the data of a successful
    response, the [catch] logs a rejected request, the [finally] ends the
    initial loading phase. *)
Definition fetchWiFiStatus (r : Outcome (GetBody (option WiFiStatusData)))
  : Eff State unit :=
  emit (HttpGet (API_BASE ++ "/wifi/status")) ;;
  match r with
  | Resolved response =>
      if success response then setWifiStatus (data response) else ret tt
  | Rejected error =>
      emit (ConsoleError "Failed to fetch WiFi status:" error)
  end ;;
  setInitialLoading false.

(** [scanNetworks]. *)
Definition scanNetworks (r : Outcome (GetBody (list NetworkEntry)))
  : Eff State unit :=
  setScanning true ;;
  emit (HttpGet (API_BASE ++ "/wifi/networks")) ;;
  match r with
  | Resolved response =>
      if success response then
        setNetworks (data response) ;;
        setShowNetworkList true
      else ret tt
  | Rejected error =>
      emit (ConsoleError "Failed to scan networks:" error)
  end ;;
  setScanning false.

(** [connectToNetwork]. [r] is the outcome of the POST; [refetch] is the
    outcome of the status request awaited on the success path, and is
    not looked at on any other path. *)
Definition connectToNetwork (r : Outcome ConnectBody)
  (refetch : Outcome (GetBody (option WiFiStatusData))) : Eff State unit :=
  sel <- gets selectedNetwork ;;
  match sel with
  | None => ret tt
  | Some network =>
      setConnecting true ;;
      pw <- gets password ;;
      emit (HttpPost (API_BASE ++ "/wifi/connect") (ssid network) pw) ;;
      match r with
      | Resolved response =>
          if connect_success response then
            setSelectedNetwork None ;;
            setPassword "" ;;
            setShowNetworkList false ;;
            fetchWiFiStatus refetch
          else
            emit (Alert (or_else (message response) "Failed to connect"))
      | Rejected error =>
          emit (ConsoleError "Connection failed:" error) ;;
          emit (Alert "Failed to connect to network")
      end ;;
      setConnecting false
  end.

Definition icon_full : string := "▂▄▆█".
Definition icon_three_quarter : string := "▂▄▆".
Definition icon_half : string := "▂▄".
Definition icon_minimal : string := "▂".

Definition getSignalIcon (signal : Z) : string :=
  if (signal >=? 75)%Z then icon_full
  else if (signal >=? 50)%Z then icon_three_quarter
  else if (signal >=? 25)%Z then icon_half
  else icon_minimal.

(** *** The rendered view and its event handlers *)

(** The guard of the credential form,
    [selectedNetwork && !selectedNetwork.connected], inside the block
    guarded by [showNetworkList], inside the render that follows the
    [initialLoading] skeleton. The result is the entry the form is for. *)
Definition credentialForm (s : State) : option NetworkEntry :=
  if initialLoading s then None
  else if showNetworkList s then
    match selectedNetwork s with
    | Some network => if negb (connected network) then Some network else None
    | None => None
    end
  else None.

(** The network list is on screen. *)
Definition listShown (s : State) : bool :=
  negb (initialLoading s) && showNetworkList s.

(** [onClick={() => setSelectedNetwork(network)}] of a list entry. *)
Definition selectNetwork (network : NetworkEntry) : Eff State unit :=
  setSelectedNetwork (Some network).

(** [onChange] of the password input. *)
Definition changePassword (value : string) : Eff State unit :=
  setPassword value.

(** [onClick] of the Cancel button. *)
Definition cancel : Eff State unit :=
  setSelectedNetwork None ;;
  setPassword "".

(** [onKeyPress={(e) => e.key === 'Enter' && connectToNetwork()}]. *)
Definition keyPress (key : string) (r : Outcome ConnectBody)
  (refetch : Outcome (GetBody (option WiFiStatusData))) : Eff State unit :=
  if String.eqb key "Enter" then connectToNetwork r refetch else ret tt.

(** What can happen to a mounted component: a poll of the status, or a
    user action on an element of the current render. Each request comes
    with its outcome. *)
Inductive Action : Type :=
| Poll (r : Outcome (GetBody (option WiFiStatusData)))
| ClickChangeWifi (r : Outcome (GetBody (list NetworkEntry)))
| ClickRefresh (r : Outcome (GetBody (list NetworkEntry)))
| ClickNetwork (index : nat)
| TypePassword (value : string)
| PressKey (key : string) (r : Outcome ConnectBody)
    (refetch : Outcome (GetBody (option WiFiStatusData)))
| ClickCancel
| ClickConnect (r : Outcome ConnectBody)
    (refetch : Outcome (GetBody (option WiFiStatusData))).

(** The handler behind an action, or [None] when the element is not in
    the current render or is disabled. *)
Definition handler (a : Action) (s : State) : option (Eff State unit) :=
  match a with
  | Poll r => Some (fetchWiFiStatus r)
  | ClickChangeWifi r =>
      if negb (initialLoading s) && negb (scanning s)
      then Some (scanNetworks r) else None
  | ClickRefresh r =>
      if listShown s && negb (scanning s)
      then Some (scanNetworks r) else None
  | ClickNetwork index =>
      if listShown s then
        match nth_error (networks s) index with
        | Some network => Some (selectNetwork network)
        | None => None
        end
      else None
  | TypePassword value =>
      match credentialForm s with
      | Some _ => Some (changePassword value)
      | None => None
      end
  | PressKey key r refetch =>
      match credentialForm s with
      | Some _ => Some (keyPress key r refetch)
      | None => None
      end
  | ClickCancel =>
      match credentialForm s with
      | Some _ => Some cancel
      | None => None
      end
  | ClickConnect r refetch =>
      match credentialForm s with
      | Some _ =>
          if negb (connecting s) then Some (connectToNetwork r refetch)
          else None
      | None => None
      end
  end.

(** A run of actions, each handler completing before the next action. *)
Fixpoint run (actions : list Action) (s : State)
  : option (State * list Event) :=
  match actions with
  | [] => Some (s, [])
  | a :: rest =>
      match handler a s with
      | None => None
      | Some h =>
          let '(_, s1, t1) := h s in
          match run rest s1 with
          | Some (s2, t2) => Some (s2, (t1 ++ t2)%list)
          | None => None
          end
      end
  end.

(** States the component reaches from its first render. *)
Definition reachable (s : State) : Prop :=
  exists actions t, run actions initial = Some (s, t).

(** The connection attempt is the pair of the selection and the typed
    password; it is cleared when both are reset. *)
Definition attemptCleared (s : State) : Prop :=
  selectedNetwork s = None /\ password s = "".

(** *** Sample data

    A scan result with an open entry and the entry the device is
    connected to, and a user who has scanned, picked "lab" and typed a
    password. *)
Definition lab : NetworkEntry := mkNetworkEntry "lab" 74 "WPA2" false.
Definition home : NetworkEntry := mkNetworkEntry "home" 80 "WPA2" true.
Definition online : Outcome (GetBody (option WiFiStatusData)) :=
  Resolved (mkGetBody true (Some (mkWiFiStatusData true (Some "home")))).
Definition scanned : Outcome (GetBody (list NetworkEntry)) :=
  Resolved (mkGetBody true [lab; home]).

Definition typing : list Action :=
  [Poll online; ClickChangeWifi scanned; ClickNetwork 0;
   TypePassword "hunter2"].

Definition entering : State :=
  mkState (Some (mkWiFiStatusData true (Some "home"))) [lab; home]
    false false false true false (Some lab) "hunter2".

Definition badPassword : Outcome ConnectBody :=
  Resolved (mkConnectBody false (Some "bad password")).

(** *** The header line

    The icon is [Wifi] when [wifiStatus?.connected] and [WifiOff]
    otherwise; the text is
    [wifiStatus?.connected ? wifiStatus.ssid : 'Not connected'], and a
    connected status without ssid renders no text. The header replaces
    the loading skeleton once [initialLoading] is false. *)
Inductive Header : Type :=
| Skeleton
| StatusLine (wifiIcon : bool) (text : option string).

Definition header (s : State) : Header :=
  if initialLoading s then Skeleton
  else
    match wifiStatus s with
    | Some st =>
        if ws_connected st then StatusLine true (ws_ssid st)
        else StatusLine false (Some "Not connected")
    | None => StatusLine false (Some "Not connected")
    end.

(** A connect request failed: rejected, or answered [success:false]. *)
Definition connectFailed (r : Outcome ConnectBody) : Prop :=
  match r with
  | Rejected _ => True
  | Resolved body => connect_success body = false
  end.



(** The actions that submit the credential form, with the outcome of
    the connect request. *)
Definition submission (a : Action) : option (Outcome ConnectBody) :=
  match a with
  | ClickConnect r _ => Some r
  | PressKey key r _ => if String.eqb key "Enter" then Some r else None
  | _ => None
  end.

(** What holds between two actions when every handler completes before
    the next action: no spinner is left on, nothing but a poll happens
    before the first poll, and a selection or a typed password exists
    only under a shown list and a selection. *)
Definition settled (s : State) : Prop :=
  scanning s = false /\
  connecting s = false /\
  loading s = false /\
  (initialLoading s = true -> s = initial) /\
  (showNetworkList s = false -> selectedNetwork s = None) /\
  (selectedNetwork s = None -> password s = "").

(** The user of [typing] has submitted and the request is in flight. *)
Definition submitting : State :=
  mkState (Some (mkWiFiStatusData true (Some "home"))) [lab; home]
    false false false true true (Some lab) "hunter2".

(** A scan that also finds a second open entry, and the user who then
    picked "lab" and typed a password. *)
Definition guest : NetworkEntry := mkNetworkEntry "guest" 40 "Open" false.

Definition typingAmongThree : list Action :=
  [Poll online; ClickChangeWifi (Resolved (mkGetBody true [lab; guest; home]));
   ClickNetwork 0; TypePassword "hunter2"].

Definition choosing : State :=
  mkState (Some (mkWiFiStatusData true (Some "home"))) [lab; guest; home]
    false false false true false (Some lab) "hunter2".

End WiFi.

Module StatusPanel.

(** ** StatusPanel.jsx *)

Record ContainerStatus : Type := mkContainerStatus {
  running : bool;
  status : option string
}.

Record Stream : Type := mkStream {
  name : string;
  stream_status : string
}.

(** One component of the snapshot; every field may be missing. *)
Record ComponentInfo : Type := mkComponentInfo {
  container_status : option ContainerStatus;
  local_streams : option (list Stream);
  cloud_streams : option (list Stream)
}.

Record Snapshot : Type := mkSnapshot {
  video_processor : option ComponentInfo;
  ros2_sensor : option ComponentInfo;
  orchestrator : option ComponentInfo
}.

(** The two [useState] cells of the component. *)
Record State : Type := mkState {
  containersData : option Snapshot;
  loading : bool
}.

Definition initial : State := mkState None true.

Definition setContainersData (v : option Snapshot) : Eff State unit :=
  modify (fun s => mkState v (loading s)).

Definition setLoading (v : bool) : Eff State unit :=
  modify (fun s => mkState (containersData s) v).

(** [fetchContainerStatus]: only the [catch] resets the snapshot. *)
Definition fetchContainerStatus (r : Outcome (GetBody (option Snapshot)))
  : Eff State unit :=
  emit (HttpGet (API_BASE ++ "/containers/status")) ;;
  match r with
  | Resolved response =>
      if success response then setContainersData (data response) else ret tt
  | Rejected error =>
      emit (ConsoleError "Failed to fetch container status:" error) ;;
      setContainersData None
  end ;;
  setLoading false.

Definition gray : string := "#6b7280".
Definition green : string := "#10b981".
Definition red : string := "#ef4444".

Definition getStatusColor (st : option ContainerStatus) : string :=
  match st with
  | None => gray
  | Some st => if running st then green else red
  end.

Definition getStatusText (st : option ContainerStatus) : string :=
  match st with
  | None => "Unknown"
  | Some st =>
      if running st then "Running"
      else
        match status st with
        | Some label =>
            if String.eqb label "not_found" then "Not Found" else "Stopped"
        | None => "Stopped"
        end
  end.

(** [containersData?.<component>?.container_status]. *)
Definition statusOf (component : Snapshot -> option ComponentInfo)
  (cd : option Snapshot) : option ContainerStatus :=
  match cd with
  | Some snapshot =>
      match component snapshot with
      | Some info => container_status info
      | None => None
      end
  | None => None
  end.

(** Colour and text of the three status lines of the panel. *)
Definition statusLines (s : State) : list (string * string) :=
  map (fun component =>
         let st := statusOf component (containersData s) in
         (getStatusColor st, getStatusText st))
      [video_processor; ros2_sensor; orchestrator].

(** *** Sample data: a snapshot in which the video processor runs. *)
Definition up : ComponentInfo :=
  mkComponentInfo (Some (mkContainerStatus true (Some "running"))) None None.
Definition snapshot1 : Snapshot := mkSnapshot (Some up) None None.
Definition showing : State := mkState (Some snapshot1) false.
Definition refused : Outcome (GetBody (option Snapshot)) :=
  Resolved (mkGetBody false None).

(** *** A sequence of polls *)

Fixpoint polls (rs : list (Outcome (GetBody (option Snapshot))))
  : Eff State unit :=
  match rs with
  | [] => ret tt
  | r :: rest => fetchContainerStatus r ;; polls rest
  end.

(** The snapshot on display after a poll: cleared by a rejected request,
    replaced by a successful response, kept otherwise. *)
Definition displayed (r : Outcome (GetBody (option Snapshot)))
  (current : option Snapshot) : option Snapshot :=
  match r with
  | Rejected _ => None
  | Resolved body => if success body then data body else current
  end.

(** *** The services rows of the orchestrator

    [containersData.orchestrator.services], which [ComponentInfo] above
    leaves out: the four keys the panel reads, each possibly missing,
    and the number of any other keys of the object. [battery_soc] is a
    finite number, taken as the rational it denotes. *)
Record Services : Type := mkServices {
  slam : option string;
  nav2 : option string;
  is_charging : option bool;
  battery_soc : option QArith_base.Q;
  other_keys : nat
}.

Definition present {A} (field : option A) : nat :=
  match field with Some _ => 1 | None => 0 end.

(** [Object.keys(services).length]. *)
Definition keyCount (sv : Services) : nat :=
  present (slam sv) + present (nav2 sv) + present (is_charging sv) +
  present (battery_soc sv) + other_keys sv.

(** [Math.round]: the nearest integer, a tie going up. *)
Definition Math_round (x : QArith_base.Q) : Z :=
  Qround.Qfloor (QArith_base.Qplus x (QArith_base.Qmake 1 2)).

(** The decimal digits of an integer, as a template literal prints an
    integral number below 10^21 in absolute value. *)
Definition decimal (n : Z) : string :=
  DecimalString.NilZero.string_of_int (Z.to_int n).

(** The text of the charging row: the label, then the percentage when
    [battery_soc !== undefined]. *)
Definition chargingText (sv : Services) : string :=
  (match is_charging sv with
   | Some true => "Charging"
   | _ => "Not Charging"
   end) ++
  (match battery_soc sv with
   | Some soc => " (" ++ decimal (Math_round soc) ++ "%)"
   | None => ""
   end).

(** The rows under [services && Object.keys(services).length > 0],
    each a label and a value. *)
Definition servicesRows (services : option Services)
  : list (string * string) :=
  match services with
  | Some sv =>
      if (0 <? keyCount sv)%nat then
        [("SLAM Status", or_else (slam sv) "unknown");
         ("Nav2 Status", or_else (nav2 sv) "unknown");
         ("Charging Status", chargingText sv)]
      else []
  | None => []
  end.

End StatusPanel.

Module EventLoop.

(** ** The polling effects of the two components

    Time is a millisecond clock. A repeating timer fires each time the
    clock reaches its due time and is then re-armed one delay later; this
    is the nominal behaviour of [setInterval], without scheduling jitter. *)

(** The functions handed to [setInterval]. *)
Inductive Callback : Type :=
| FetchContainerStatus
| FetchWiFiStatus.

Definition Callback_eqb (a b : Callback) : bool :=
  match a, b with
  | FetchContainerStatus, FetchContainerStatus => true
  | FetchWiFiStatus, FetchWiFiStatus => true
  | _, _ => false
  end.

Record Timer : Type := mkTimer {
  handle : nat;
  callback : Callback;
  delay : Z;
  due : Z
}.

(** The clock, the next timer handle, the timer table, and the log of
    the callback invocations made so far, each with its time. *)
Record Runtime : Type := mkRuntime {
  clock : Z;
  fresh : nat;
  timers : list Timer;
  calls : list (Z * Callback)
}.

Definition invoke (cb : Callback) (rt : Runtime) : Runtime :=
  mkRuntime (clock rt) (fresh rt) (timers rt)
    (calls rt ++ [(clock rt, cb)]).

Definition setInterval (cb : Callback) (ms : Z) (rt : Runtime)
  : nat * Runtime :=
  (fresh rt,
   mkRuntime (clock rt) (S (fresh rt))
     (timers rt ++ [mkTimer (fresh rt) cb ms (clock rt + ms)])
     (calls rt)).

Definition clearInterval (h : nat) (rt : Runtime) : Runtime :=
  mkRuntime (clock rt) (fresh rt)
    (filter (fun tm => negb (Nat.eqb (handle tm) h)) (timers rt))
    (calls rt).

Definition isDue (now : Z) (tm : Timer) : bool := (due tm =? now)%Z.

Definition rearm (now : Z) (tm : Timer) : Timer :=
  if isDue now tm
  then mkTimer (handle tm) (callback tm) (delay tm) (now + delay tm)
  else tm.

(** One millisecond passes: the timers that are due fire, in table
    order, and are re-armed. *)
Definition tick (rt : Runtime) : Runtime :=
  let now := (clock rt + 1)%Z in
  mkRuntime now (fresh rt)
    (map (rearm now) (timers rt))
    (calls rt ++
       map (fun tm => (now, callback tm)) (filter (isDue now) (timers rt))).

(** The [useEffect] of StatusPanel.jsx; the result is the cleanup
    closure, which holds the interval handle. *)
Definition statusPanelEffect (rt : Runtime) : (Runtime -> Runtime) * Runtime :=
  let rt1 := invoke FetchContainerStatus rt in
  let '(interval, rt2) := setInterval FetchContainerStatus 5000 rt1 in
  (fun rt' => clearInterval interval rt', rt2).

(** The [useEffect] of WiFiStatus.jsx. *)
Definition wifiStatusEffect (rt : Runtime) : (Runtime -> Runtime) * Runtime :=
  let rt1 := invoke FetchWiFiStatus rt in
  let '(interval, rt2) := setInterval FetchWiFiStatus 5000 rt1 in
  (fun rt' => clearInterval interval rt', rt2).

Inductive Component : Type :=
| StatusPanel
| WiFiStatus.

Definition Component_eqb (a b : Component) : bool :=
  match a, b with
  | StatusPanel, StatusPanel => true
  | WiFiStatus, WiFiStatus => true
  | _, _ => false
  end.

Definition effectOf (c : Component)
  : Runtime -> (Runtime -> Runtime) * Runtime :=
  match c with
  | StatusPanel => statusPanelEffect
  | WiFiStatus => wifiStatusEffect
  end.

Definition fetchOf (c : Component) : Callback :=
  match c with
  | StatusPanel => FetchContainerStatus
  | WiFiStatus => FetchWiFiStatus
  end.

(** A page: the runtime, and for each mounted component the cleanup
    its effect returned. An effect with an empty dependency list runs
    when the component mounts, its cleanup when the component unmounts. *)
Record Page : Type := mkPage {
  runtime : Runtime;
  cleanup : Component -> option (Runtime -> Runtime)
}.

Definition initialPage : Page :=
  mkPage (mkRuntime 0 0 [] []) (fun _ => None).

Definition setCleanup (c : Component) (v : option (Runtime -> Runtime))
  (f : Component -> option (Runtime -> Runtime))
  : Component -> option (Runtime -> Runtime) :=
  fun c' => if Component_eqb c c' then v else f c'.

Inductive Step : Type :=
| Tick
| Mount (c : Component)
| Unmount (c : Component).

Definition Step_eqb (a b : Step) : bool :=
  match a, b with
  | Tick, Tick => true
  | Mount c, Mount c' => Component_eqb c c'
  | Unmount c, Unmount c' => Component_eqb c c'
  | _, _ => false
  end.

Definition step (st : Step) (p : Page) : option Page :=
  match st with
  | Tick => Some (mkPage (tick (runtime p)) (cleanup p))
  | Mount c =>
      match cleanup p c with
      | Some _ => None
      | None =>
          let '(cl, rt) := effectOf c (runtime p) in
          Some (mkPage rt (setCleanup c (Some cl) (cleanup p)))
      end
  | Unmount c =>
      match cleanup p c with
      | Some cl => Some (mkPage (cl (runtime p)) (setCleanup c None (cleanup p)))
      | None => None
      end
  end.

Fixpoint run (steps : list Step) (p : Page) : option Page :=
  match steps with
  | [] => Some p
  | st :: rest =>
      match step st p with
      | Some p1 => run rest p1
      | None => None
      end
  end.

Definition reachable (p : Page) : Prop :=
  exists steps, run steps initialPage = Some p.

(** The milliseconds that pass during a run. *)
Definition elapsed (steps : list Step) : Z :=
  Z.of_nat (length (filter (Step_eqb Tick) steps)).

(** The timers whose callback is the fetch of component [c]. *)
Definition timersOf (c : Component) (rt : Runtime) : list Timer :=
  filter (fun tm => Callback_eqb (callback tm) (fetchOf c)) (timers rt).

(** The times at which the fetch of component [c] was invoked. *)
Definition invocations (c : Component) (rt : Runtime) : list Z :=
  map fst (filter (fun e => Callback_eqb (snd e) (fetchOf c)) (calls rt)).

Definition callsOf (c : Component) (p : Page) : list Z :=
  invocations c (runtime p).

(** The polling schedule from a mount at [t0] up to [now]: [t0], then
    every 5000 ms. *)
Definition schedule (t0 now : Z) : list Z :=
  map (fun k => (t0 + 5000 * Z.of_nat k)%Z)
      (seq 0 (S (Z.to_nat ((now - t0) / 5000)))).

(** The invariant of the reachable pages: handles in the table are below
    the next handle, the timers of the two components have different
    handles, a component that is not mounted has no timer, and a mounted
    one has exactly the timer that its cleanup clears. *)
Record Inv (p : Page) : Prop := mkInv {
  inv_fresh : forall tm,
    In tm (timers (runtime p)) -> handle tm < fresh (runtime p);
  inv_apart : forall c c' tm tm',
    c <> c' ->
    In tm (timersOf c (runtime p)) -> In tm' (timersOf c' (runtime p)) ->
    handle tm <> handle tm';
  inv_cleanup : forall c,
    match cleanup p c with
    | None => timersOf c (runtime p) = []
    | Some cl =>
        exists h d,
          cl = clearInterval h /\
          timersOf c (runtime p) = [mkTimer h (fetchOf c) 5000 d]
    end
}.

(** Component [c], mounted at [t0] when its invocations were [base],
    is still mounted after [k] firings of its timer. *)
Definition Live (c : Component) (base : list Z) (t0 : Z) (p : Page) : Prop :=
  exists (k h : nat),
    cleanup p c = Some (clearInterval h) /\
    timersOf c (runtime p) =
      [mkTimer h (fetchOf c) 5000 (t0 + 5000 * (Z.of_nat k + 1))] /\
    (t0 + 5000 * Z.of_nat k <= clock (runtime p)
       < t0 + 5000 * (Z.of_nat k + 1))%Z /\
    callsOf c p =
      (base ++ map (fun i => (t0 + 5000 * Z.of_nat i)%Z) (seq 0 (S k)))%list.

(** *** Sample run: both components mount, 10 seconds pass, the status
    panel unmounts, 10 more seconds pass. *)
Definition mountBoth : list Step := [Mount StatusPanel; Mount WiFiStatus].
Definition tenSeconds : list Step := repeat Tick (Z.to_nat 10000).

Definition pageAfter (steps : list Step) : Page :=
  match run steps initialPage with
  | Some p => p
  | None => initialPage
  end.

(** The components that are mounted. *)
Definition mounted (p : Page) : list Component :=
  filter (fun c => match cleanup p c with Some _ => true | None => false end)
    [StatusPanel; WiFiStatus].

End EventLoop.

(** * Properties of WiFiStatus.jsx *)

Module WiFiFacts.
Import WiFi.

Lemma typing_reaches_entering :
  run typing initial =
  Some (entering, [HttpGet "/api/wifi/status"; HttpGet "/api/wifi/networks"]).
Proof. reflexivity. Qed.

Lemma entering_reachable : reachable entering.
Proof. exists typing. eexists. exact typing_reaches_entering. Qed.

Lemma or_else_some (text fallback : string) :
  text <> "" -> or_else (Some text) fallback = text.
Proof. destruct text; [congruence | reflexivity]. Qed.

Lemma or_else_fallback (m : option string) (fallback : string) :
  m = None \/ m = Some "" -> or_else m fallback = fallback.
Proof. intros [-> | ->]; reflexivity. Qed.

(** ** Signal icons *)

Lemma icons_distinct :
  NoDup [icon_full; icon_three_quarter; icon_half; icon_minimal].
Proof.
  repeat constructor; cbn; intuition discriminate.
Qed.

(** C5. For every integer signal, [getSignalIcon] gives the full-bars
    icon from 75 up, the three-quarter icon from 50 to 74, the half icon
    from 25 to 49 and the minimal icon below 25: four distinct icons,
    each tier closed at its lower end; so 75 is full, 74 and 50 are
    three-quarter, 49 and 25 are half, 24 and 0 are minimal. *)
Theorem getSignalIcon_buckets :
  (forall signal : Z,
      ((75 <= signal)%Z -> getSignalIcon signal = icon_full) /\
      ((50 <= signal < 75)%Z -> getSignalIcon signal = icon_three_quarter) /\
      ((25 <= signal < 50)%Z -> getSignalIcon signal = icon_half) /\
      ((signal < 25)%Z -> getSignalIcon signal = icon_minimal)) /\
  NoDup [icon_full; icon_three_quarter; icon_half; icon_minimal] /\
  getSignalIcon 75 = icon_full /\
  getSignalIcon 74 = icon_three_quarter /\
  getSignalIcon 50 = icon_three_quarter /\
  getSignalIcon 49 = icon_half /\
  getSignalIcon 25 = icon_half /\
  getSignalIcon 24 = icon_minimal /\
  getSignalIcon 0 = icon_minimal.
Proof.
  split.
  - intro signal. unfold getSignalIcon.
    destruct (Z.geb_spec signal 75), (Z.geb_spec signal 50),
      (Z.geb_spec signal 25); repeat split; intros; (reflexivity || lia).
  - split; [exact icons_distinct | repeat split].
Qed.

Lemma getSignalIcon_buckets_witness :
  getSignalIcon 100 = icon_full /\
  getSignalIcon 60 = icon_three_quarter /\
  getSignalIcon 30 = icon_half /\
  getSignalIcon (-3) = icon_minimal.
Proof.
  split; [| split; [| split]].
  - apply (proj1 getSignalIcon_buckets 100%Z). lia.
  - apply (proj1 getSignalIcon_buckets 60%Z). lia.
  - apply (proj1 getSignalIcon_buckets 30%Z). lia.
  - apply (proj1 getSignalIcon_buckets (-3)%Z). lia.
Defined.

(** ** connectToNetwork *)

(** The connect request carries the selection's ssid and the password
    typed so far. *)
Lemma connect_post_uses_selection (s : State) (r : Outcome ConnectBody)
  (refetch : Outcome (GetBody (option WiFiStatusData)))
  (url id pw : string) :
  In (HttpPost url id pw) (trace (connectToNetwork r refetch s)) ->
  exists network,
    selectedNetwork s = Some network /\ id = ssid network /\ pw = password s.
Proof.
  destruct s as [ws nets il lo sc sh co [network |] pass];
    [| intros []].
  destruct r as [e | [[] m]]; destruct refetch as [e' | [[] d]]; cbn;
    intro H; decompose [or] H; try discriminate; try contradiction;
    match goal with
    | E : HttpPost _ _ _ = HttpPost _ _ _ |- _ => injection E as _ <- <-
    end; exists network; auto.
Qed.

(** C9. With no network selected, [connectToNetwork] does nothing: no
    request, no alert, no log, and the state is the one it started
    from. A connect request is only ever built from an existing
    selection, whose ssid it carries. *)
Theorem connect_without_selection_is_noop (s : State)
  (r : Outcome ConnectBody)
  (refetch : Outcome (GetBody (option WiFiStatusData))) :
  (selectedNetwork s = None -> connectToNetwork r refetch s = (tt, s, [])) /\
  (forall url id pw,
      In (HttpPost url id pw) (trace (connectToNetwork r refetch s)) ->
      exists network,
        selectedNetwork s = Some network /\
        id = ssid network /\ pw = password s).
Proof.
  split.
  - intro H. run_handler s.
  - intros url id pw. apply connect_post_uses_selection.
Qed.

Lemma connect_without_selection_is_noop_witness :
  selectedNetwork initial = None /\
  connectToNetwork badPassword online initial = (tt, initial, []).
Proof.
  split; [reflexivity |].
  apply (proj1 (connect_without_selection_is_noop initial badPassword online)).
  reflexivity.
Defined.

(** C4. When the connect request resolves with [success:true], the
    selection is set to null, the password to the empty string, the list
    is closed, and the status request is issued by the handler itself,
    directly after the POST, not by the interval timer. *)
Theorem connect_success_clears_and_refetches (s : State)
  (network : NetworkEntry) (m : option string)
  (refetch : Outcome (GetBody (option WiFiStatusData))) :
  selectedNetwork s = Some network ->
  let result := connectToNetwork (Resolved (mkConnectBody true m)) refetch s in
  selectedNetwork (final_state result) = None /\
  password (final_state result) = "" /\
  showNetworkList (final_state result) = false /\
  connecting (final_state result) = false /\
  trace result =
    HttpPost "/api/wifi/connect" (ssid network) (password s)
    :: HttpGet "/api/wifi/status"
    :: match refetch with
       | Rejected error => [ConsoleError "Failed to fetch WiFi status:" error]
       | Resolved _ => []
       end.
Proof.
  intro H. run_handler s.
  destruct refetch as [e | [[] d]]; cbn; repeat split.
Qed.

Lemma connect_success_clears_and_refetches_witness :
  attemptCleared
    (final_state
       (connectToNetwork (Resolved (mkConnectBody true None)) online entering)).
Proof.
  pose proof (connect_success_clears_and_refetches entering lab None online
                eq_refl) as H.
  cbv zeta in H. destruct H as (Hsel & Hpw & _).
  split; assumption.
Defined.

(** The user of [typing] submits, and the server answers
    [{success:false, message:"bad password"}]: the alert shows the
    message and the list stays open, but the selection and the typed
    password are still there, so the attempt is not cleared. *)
Lemma connect_failure_attempt_not_cleared :
  run (typing ++ [ClickConnect badPassword online]) initial =
    Some (entering,
          [HttpGet "/api/wifi/status"; HttpGet "/api/wifi/networks";
           HttpPost "/api/wifi/connect" "lab" "hunter2";
           Alert "bad password"]) /\
  listShown entering = true /\
  selectedNetwork entering = Some lab /\
  password entering = "hunter2" /\
  ~ attemptCleared entering.
Proof.
  split; [vm_compute; reflexivity |].
  split; [reflexivity |]. split; [reflexivity |]. split; [reflexivity |].
  intros [H _]. discriminate H.
Qed.

(** C1 (amended). When the connect request resolves with
    [success:false], the handler raises one alert, whose text is the
    server's message, or 'Failed to connect' when the message is missing
    or empty; the list stays as it was, and so do the selected network
    and the typed password: only the [connecting] flag is reset. *)
Theorem connect_failure_alerts_and_keeps_attempt (s : State)
  (network : NetworkEntry) (m : option string)
  (refetch : Outcome (GetBody (option WiFiStatusData))) :
  selectedNetwork s = Some network ->
  let result := connectToNetwork (Resolved (mkConnectBody false m)) refetch s in
  trace result =
    [HttpPost "/api/wifi/connect" (ssid network) (password s);
     Alert (or_else m "Failed to connect")] /\
  (forall text, m = Some text -> text <> "" ->
     or_else m "Failed to connect" = text) /\
  (m = None \/ m = Some "" ->
     or_else m "Failed to connect" = "Failed to connect") /\
  showNetworkList (final_state result) = showNetworkList s /\
  selectedNetwork (final_state result) = selectedNetwork s /\
  password (final_state result) = password s /\
  final_state result =
    mkState (wifiStatus s) (networks s) (initialLoading s) (loading s)
      (scanning s) (showNetworkList s) false (selectedNetwork s) (password s).
Proof.
  intros H result. subst result.
  split; [run_handler s |].
  split; [intros text -> Hne; now apply or_else_some |].
  split; [apply or_else_fallback |].
  run_handler s. repeat split.
Qed.

Lemma connect_failure_alerts_and_keeps_attempt_witness :
  trace (connectToNetwork badPassword online entering) =
    [HttpPost "/api/wifi/connect" "lab" "hunter2"; Alert "bad password"] /\
  selectedNetwork (final_state (connectToNetwork badPassword online entering))
    = Some lab.
Proof.
  pose proof (connect_failure_alerts_and_keeps_attempt entering lab
                (Some "bad password") online eq_refl) as H.
  cbv zeta in H. destruct H as (Ht & _ & _ & _ & Hsel & _).
  split; [exact Ht | exact Hsel].
Defined.

(** ** Selecting a list entry *)

Lemma selectNetwork_run (network : NetworkEntry) (s : State) :
  selectNetwork network s =
  (tt,
   mkState (wifiStatus s) (networks s) (initialLoading s) (loading s)
     (scanning s) (showNetworkList s) (connecting s) (Some network)
     (password s),
   []).
Proof. reflexivity. Qed.

(** While the user of [typing] is entering the password for "lab", a
    click on the connected entry "home" is not inert: the selection
    moves to "home" and the credential form, which was open, closes. *)
Lemma select_connected_not_inert :
  run typing initial =
    Some (entering,
          [HttpGet "/api/wifi/status"; HttpGet "/api/wifi/networks"]) /\
  nth_error (networks entering) 1 = Some home /\
  connected home = true /\
  handler (ClickNetwork 1) entering = Some (selectNetwork home) /\
  final_state (selectNetwork home entering) <> entering /\
  credentialForm entering = Some lab /\
  credentialForm (final_state (selectNetwork home entering)) = None.
Proof.
  repeat split; try reflexivity.
  cbn. discriminate.
Qed.

(** C3 (amended). A click on a list entry always stores the
    entry as the selection and changes nothing else. After a click on
    an entry with [connected:true] the credential form is not shown, in
    every state, so such a click never opens the credential step; but it
    replaces the selection, which closes a form that was open for
    another entry. After a click on an entry with [connected:false] in
    the shown list the credential form is open for that entry, and a
    form that is open after a click is always for the clicked entry,
    which is not connected. *)
Theorem select_opens_form_only_if_not_connected (s : State)
  (network : NetworkEntry) :
  let s' := final_state (selectNetwork network s) in
  s' = mkState (wifiStatus s) (networks s) (initialLoading s) (loading s)
         (scanning s) (showNetworkList s) (connecting s) (Some network)
         (password s) /\
  trace (selectNetwork network s) = [] /\
  (connected network = true -> credentialForm s' = None) /\
  (connected network = false -> listShown s = true ->
     credentialForm s' = Some network) /\
  (forall shown, credentialForm s' = Some shown ->
     shown = network /\ connected network = false /\ listShown s = true).
Proof.
  cbv zeta. rewrite selectNetwork_run. cbn.
  split; [reflexivity |]. split; [reflexivity |].
  unfold credentialForm, listShown; cbn.
  destruct (initialLoading s), (showNetworkList s), (connected network);
    cbn; repeat split; intros; try discriminate; try congruence.
Qed.

Lemma select_opens_form_only_if_not_connected_witness :
  credentialForm (final_state (selectNetwork home entering)) = None /\
  credentialForm (final_state (selectNetwork lab entering)) = Some lab.
Proof.
  pose proof (select_opens_form_only_if_not_connected entering home) as Hhome.
  pose proof (select_opens_form_only_if_not_connected entering lab) as Hlab.
  cbv zeta in Hhome, Hlab.
  destruct Hhome as (_ & _ & Hhome & _).
  destruct Hlab as (_ & _ & _ & Hlab & _).
  split; [apply Hhome | apply Hlab]; reflexivity.
Defined.

(** C10. In the credential step, a click on a list entry that is not
    connected replaces the selection and nothing else: the password
    typed so far is unchanged and is now the value of the credential
    form of the clicked entry. *)
Theorem select_other_network_keeps_password (s : State)
  (current network : NetworkEntry) (index : nat) :
  credentialForm s = Some current ->
  nth_error (networks s) index = Some network ->
  connected network = false ->
  exists h,
    handler (ClickNetwork index) s = Some h /\
    trace (h s) = [] /\
    final_state (h s) =
      mkState (wifiStatus s) (networks s) (initialLoading s) (loading s)
        (scanning s) (showNetworkList s) (connecting s) (Some network)
        (password s) /\
    password (final_state (h s)) = password s /\
    credentialForm (final_state (h s)) = Some network.
Proof.
  intros Hform Hnth Hopen.
  exists (selectNetwork network).
  unfold handler, listShown, credentialForm in *.
  destruct (initialLoading s) eqn:Hil; [discriminate |].
  destruct (showNetworkList s) eqn:Hshow; [| discriminate].
  cbn. rewrite Hnth, Hil, Hshow, Hopen. repeat split.
Qed.

Lemma select_other_network_keeps_password_witness :
  run typingAmongThree initial =
    Some (choosing,
          [HttpGet "/api/wifi/status"; HttpGet "/api/wifi/networks"]) /\
  credentialForm choosing = Some lab /\
  lab <> guest /\
  exists h,
    handler (ClickNetwork 1) choosing = Some h /\
    selectedNetwork (final_state (h choosing)) = Some guest /\
    password (final_state (h choosing)) = "hunter2" /\
    credentialForm (final_state (h choosing)) = Some guest.
Proof.
  split; [vm_compute; reflexivity |].
  split; [reflexivity |].
  split; [discriminate |].
  destruct (select_other_network_keeps_password choosing lab guest 1
              eq_refl eq_refl eq_refl) as (h & Hh & _ & Hs & Hpw & Hform).
  exists h. split; [exact Hh |].
  split; [rewrite Hs; reflexivity |].
  split; [exact Hpw | exact Hform].
Defined.

(** ** fetchWiFiStatus *)

(** A poll answered with [success:false] logs nothing. *)
Lemma wifi_poll_unsuccessful_logs_nothing :
  failed (Resolved (mkGetBody false (@None WiFiStatusData))) /\
  trace (fetchWiFiStatus (Resolved (mkGetBody false None)) entering) =
    [HttpGet "/api/wifi/status"] /\
  ~ exists label error,
      In (ConsoleError label error)
         (trace (fetchWiFiStatus (Resolved (mkGetBody false None)) entering)).
Proof.
  split; [reflexivity |]. split; [reflexivity |].
  intros (label & error & [H | []]). discriminate H.
Qed.

(** C7 (amended). A failed status poll leaves the displayed
    WiFi status as it was and raises no alert; besides the request it
    only ends the initial loading phase. A rejected request is logged
    with [console.error]; a response with [success:false] is dropped
    without any log. *)
Theorem wifi_poll_failure_keeps_status (s : State)
  (r : Outcome (GetBody (option WiFiStatusData))) :
  failed r ->
  let result := fetchWiFiStatus r s in
  wifiStatus (final_state result) = wifiStatus s /\
  final_state result =
    mkState (wifiStatus s) (networks s) false (loading s) (scanning s)
      (showNetworkList s) (connecting s) (selectedNetwork s) (password s) /\
  trace result =
    HttpGet "/api/wifi/status"
    :: match r with
       | Rejected error => [ConsoleError "Failed to fetch WiFi status:" error]
       | Resolved _ => []
       end /\
  existsb isAlert (trace result) = false.
Proof.
  intros Hfail result. subst result.
  destruct r as [e | [ok d]]; cbn in Hfail; subst;
    run_handler s; repeat split.
Qed.

Lemma wifi_poll_failure_keeps_status_witness :
  wifiStatus (final_state (fetchWiFiStatus (Rejected "timeout") entering)) =
  wifiStatus entering.
Proof.
  exact (proj1 (wifi_poll_failure_keeps_status entering (Rejected "timeout") I)).
Defined.

(** A successful poll replaces the displayed status by the response data. *)
Lemma wifi_poll_success_replaces_status (s : State)
  (d : option WiFiStatusData) :
  wifiStatus (final_state (fetchWiFiStatus (Resolved (mkGetBody true d)) s)) = d.
Proof. reflexivity. Qed.

End WiFiFacts.

(** * Properties of StatusPanel.jsx *)

Module StatusPanelFacts.
Import StatusPanel.

(** ** Rendering of a component status *)

(** C6. A missing status record renders gray 'Unknown'; a record with
    [running] true renders green 'Running'; a record with [running]
    false renders red, with the text 'Not Found' when its [status] is
    'not_found' and 'Stopped' for any other or missing [status]. *)
Theorem status_rendering :
  (getStatusColor None = gray /\ getStatusText None = "Unknown") /\
  (forall st, running st = true ->
     getStatusColor (Some st) = green /\ getStatusText (Some st) = "Running") /\
  (forall st, running st = false -> status st = Some "not_found" ->
     getStatusColor (Some st) = red /\ getStatusText (Some st) = "Not Found") /\
  (forall st, running st = false -> status st <> Some "not_found" ->
     getStatusColor (Some st) = red /\ getStatusText (Some st) = "Stopped").
Proof.
  split; [split; reflexivity |].
  split; [| split]; intros [run st]; cbn.
  - intros ->. split; reflexivity.
  - intros -> ->. split; reflexivity.
  - intros -> Hst. split; [reflexivity |].
    destruct st as [label |]; [| reflexivity].
    destruct (String.eqb_spec label "not_found") as [-> | _];
      [congruence | reflexivity].
Qed.

Lemma status_rendering_witness :
  getStatusText (Some (mkContainerStatus true None)) = "Running" /\
  getStatusText (Some (mkContainerStatus false (Some "not_found"))) =
    "Not Found" /\
  getStatusColor (Some (mkContainerStatus false (Some "exited"))) = red /\
  getStatusText (Some (mkContainerStatus false (Some "exited"))) = "Stopped".
Proof.
  destruct status_rendering as (_ & Hrun & Hmissing & Hstopped).
  split; [| split].
  - apply (Hrun (mkContainerStatus true None)). reflexivity.
  - apply (Hmissing (mkContainerStatus false (Some "not_found")));
      reflexivity.
  - apply (Hstopped (mkContainerStatus false (Some "exited")));
      [reflexivity | discriminate].
Defined.

(** Without a snapshot the three status lines are gray 'Unknown'. *)
Lemma statusLines_without_snapshot (l : bool) :
  statusLines (mkState None l) =
  [(gray, "Unknown"); (gray, "Unknown"); (gray, "Unknown")].
Proof. reflexivity. Qed.

(** ** fetchContainerStatus *)

(** A poll answered with [success:false] while a snapshot is displayed:
    the snapshot stays on display and nothing is logged. *)
Lemma container_poll_unsuccessful_keeps_snapshot :
  failed refused /\
  containersData (final_state (fetchContainerStatus refused showing)) =
    Some snapshot1 /\
  containersData (final_state (fetchContainerStatus refused showing)) <>
    None /\
  trace (fetchContainerStatus refused showing) =
    [HttpGet "/api/containers/status"] /\
  existsb isConsoleError (trace (fetchContainerStatus refused showing)) =
    false.
Proof.
  split; [reflexivity |]. split; [reflexivity |].
  split; [discriminate |]. split; reflexivity.
Qed.

(** C2 (amended). A rejected request clears the snapshot to
    null, so that every status line renders gray 'Unknown', and is
    logged with [console.error]. A response with [success:true] replaces
    the snapshot by the response data. A response with [success:false]
    leaves the snapshot as it was and logs nothing. No outcome raises an
    alert, and each one ends the loading phase. *)
Theorem container_poll_outcomes (s : State)
  (r : Outcome (GetBody (option Snapshot))) :
  let result := fetchContainerStatus r s in
  loading (final_state result) = false /\
  existsb isAlert (trace result) = false /\
  match r with
  | Rejected error =>
      containersData (final_state result) = None /\
      statusLines (final_state result) =
        [(gray, "Unknown"); (gray, "Unknown"); (gray, "Unknown")] /\
      trace result =
        [HttpGet "/api/containers/status";
         ConsoleError "Failed to fetch container status:" error]
  | Resolved body =>
      containersData (final_state result) =
        (if success body then data body else containersData s) /\
      trace result = [HttpGet "/api/containers/status"]
  end.
Proof.
  destruct s as [cd l]. destruct r as [e | [[] d]]; cbn; repeat split.
Qed.

End StatusPanelFacts.

(** * Properties of the polling effects *)

Module EventLoopFacts.
Import EventLoop.
Local Open Scope list_scope.

(** ** Callbacks and components *)

Lemma Callback_eqb_fetchOf (c c' : Component) :
  Callback_eqb (fetchOf c) (fetchOf c') = Component_eqb c c'.
Proof. destruct c, c'; reflexivity. Qed.

Lemma Component_eqb_refl (c : Component) : Component_eqb c c = true.
Proof. destruct c; reflexivity. Qed.

Lemma Component_eqb_neq (c c' : Component) :
  c <> c' -> Component_eqb c c' = false.
Proof. destruct c, c'; intro H; (reflexivity || contradiction). Qed.

Lemma Component_eqb_true (c c' : Component) :
  Component_eqb c c' = true -> c = c'.
Proof. destruct c, c'; intro H; (reflexivity || discriminate). Qed.

(** Both effects have the same shape: an immediate invocation of the
    fetch, a new 5000 ms timer for it, and a cleanup that clears exactly
    that timer. *)
Lemma effectOf_eq (c : Component) (rt : Runtime) :
  effectOf c rt =
  (clearInterval (fresh rt),
   mkRuntime (clock rt) (S (fresh rt))
     (timers rt ++ [mkTimer (fresh rt) (fetchOf c) 5000 (clock rt + 5000)])
     (calls rt ++ [(clock rt, fetchOf c)])).
Proof. destruct c; reflexivity. Qed.

(** ** List facts *)

Lemma filter_comm {A} (f g : A -> bool) (l : list A) :
  filter f (filter g l) = filter g (filter f l).
Proof.
  induction l as [| x l IH]; cbn; [reflexivity |].
  destruct (f x) eqn:Hf, (g x) eqn:Hg; cbn; rewrite ?Hf, ?Hg, IH; reflexivity.
Qed.

Lemma filter_all {A} (f : A -> bool) (l : list A) :
  (forall x, In x l -> f x = true) -> filter f l = l.
Proof.
  intro H. apply forallb_filter_id. apply forallb_forall. exact H.
Qed.

(** ** The runtime operations, seen from one component *)

Lemma handle_rearm (now : Z) (tm : Timer) : handle (rearm now tm) = handle tm.
Proof. unfold rearm. destruct (isDue now tm); reflexivity. Qed.

Lemma timersOf_tick (c : Component) (rt : Runtime) :
  timersOf c (tick rt) = map (rearm (clock rt + 1)) (timersOf c rt).
Proof.
  unfold timersOf, tick; cbn. rewrite filter_map_swap. f_equal.
  apply filter_ext. intro tm. unfold rearm.
  destruct (isDue _ tm); reflexivity.
Qed.

Lemma invocations_tick (c : Component) (rt : Runtime) :
  invocations c (tick rt) =
  invocations c rt ++
  map (fun _ => (clock rt + 1)%Z)
      (filter (isDue (clock rt + 1)) (timersOf c rt)).
Proof.
  unfold invocations, timersOf, tick; cbn.
  rewrite filter_app, map_app. f_equal.
  rewrite filter_map_swap, map_map; cbn.
  rewrite filter_comm. reflexivity.
Qed.

Lemma timersOf_clearInterval (c : Component) (h : nat) (rt : Runtime) :
  timersOf c (clearInterval h rt) =
  filter (fun tm => negb (Nat.eqb (handle tm) h)) (timersOf c rt).
Proof. unfold timersOf, clearInterval; cbn. apply filter_comm. Qed.

Lemma timersOf_mounted (c c0 : Component) (rt : Runtime) (tm : Timer) :
  callback tm = fetchOf c0 ->
  timersOf c (mkRuntime (clock rt) (S (fresh rt)) (timers rt ++ [tm])
                (calls rt ++ [(clock rt, fetchOf c0)])) =
  timersOf c rt ++ (if Component_eqb c0 c then [tm] else []).
Proof.
  intro Hcb. unfold timersOf; cbn. rewrite filter_app; cbn.
  rewrite Hcb, Callback_eqb_fetchOf. reflexivity.
Qed.

Lemma invocations_mounted (c c0 : Component) (rt : Runtime)
  (l : list Timer) (n : nat) :
  invocations c (mkRuntime (clock rt) n l
                   (calls rt ++ [(clock rt, fetchOf c0)])) =
  invocations c rt ++ (if Component_eqb c0 c then [clock rt] else []).
Proof.
  unfold invocations; cbn. rewrite filter_app, map_app; cbn.
  rewrite Callback_eqb_fetchOf. destruct (Component_eqb c0 c); reflexivity.
Qed.

(** ** The invariant *)

Lemma Inv_initial : Inv initialPage.
Proof.
  constructor; cbn.
  - intros tm [].
  - intros c c' tm tm' _ [].
  - intro c. reflexivity.
Qed.

Lemma Inv_tick (p : Page) :
  Inv p -> Inv (mkPage (tick (runtime p)) (cleanup p)).
Proof.
  intros [Hfresh Hapart Hclean]. constructor; cbn [runtime cleanup].
  - intros tm Hin. cbn in Hin. apply in_map_iff in Hin.
    destruct Hin as (tm0 & <- & Hin). rewrite handle_rearm.
    apply Hfresh. exact Hin.
  - intros c c' tm tm' Hne Hin Hin'. rewrite timersOf_tick in Hin, Hin'.
    apply in_map_iff in Hin, Hin'.
    destruct Hin as (tm0 & <- & Hin). destruct Hin' as (tm0' & <- & Hin').
    rewrite !handle_rearm. now apply (Hapart c c').
  - intro c. specialize (Hclean c). rewrite timersOf_tick.
    destruct (cleanup p c) as [cl |].
    + destruct Hclean as (h & d & -> & ->). cbn. unfold rearm, isDue; cbn.
      destruct (d =? clock (runtime p) + 1)%Z; eauto.
    + rewrite Hclean. reflexivity.
Qed.

Lemma Inv_mount (p : Page) (c0 : Component) :
  Inv p -> cleanup p c0 = None ->
  Inv (mkPage (snd (effectOf c0 (runtime p)))
         (setCleanup c0 (Some (fst (effectOf c0 (runtime p)))) (cleanup p))).
Proof.
  intros [Hfresh Hapart Hclean] Hnone. rewrite effectOf_eq; cbn [fst snd].
  set (tm0 := mkTimer (fresh (runtime p)) (fetchOf c0) 5000
                (clock (runtime p) + 5000)).
  assert (Hold : forall c tm, In tm (timersOf c (runtime p)) ->
                              handle tm < fresh (runtime p)).
  { intros c tm Hin. apply Hfresh. apply filter_In in Hin. tauto. }
  assert (Hnew : forall c tm,
             In tm (timersOf c (runtime p) ++
                    (if Component_eqb c0 c then [tm0] else [])) ->
             In tm (timersOf c (runtime p)) \/ (c = c0 /\ tm = tm0)).
  { intros c tm Hin. apply in_app_or in Hin. destruct Hin as [Hin | Hin].
    - now left.
    - destruct (Component_eqb c0 c) eqn:E; [| contradiction].
      apply Component_eqb_true in E. destruct Hin as [<- | []]. now right. }
  constructor; cbn [runtime cleanup].
  - intros tm Hin. cbn in Hin. apply in_app_or in Hin.
    destruct Hin as [Hin | [<- | []]]; cbn.
    + apply Hfresh in Hin. lia.
    + lia.
  - intros c c' tm tm' Hne Hin Hin'.
    rewrite (timersOf_mounted c c0 _ tm0 eq_refl) in Hin.
    rewrite (timersOf_mounted c' c0 _ tm0 eq_refl) in Hin'.
    apply Hnew in Hin, Hin'.
    destruct Hin as [Hin | [-> ->]], Hin' as [Hin' | [-> ->]].
    + now apply (Hapart c c').
    + apply Hold in Hin. cbn. lia.
    + apply Hold in Hin'. cbn. lia.
    + contradiction.
  - intro c. rewrite (timersOf_mounted _ _ _ tm0 eq_refl).
    unfold setCleanup. destruct (Component_eqb c0 c) eqn:E.
    + apply Component_eqb_true in E. subst c.
      specialize (Hclean c0). rewrite Hnone in Hclean. rewrite Hclean.
      exists (fresh (runtime p)), (clock (runtime p) + 5000)%Z.
      split; reflexivity.
    + rewrite app_nil_r. apply Hclean.
Qed.

Lemma Inv_unmount (p : Page) (c0 : Component) (cl : Runtime -> Runtime) :
  Inv p -> cleanup p c0 = Some cl ->
  Inv (mkPage (cl (runtime p)) (setCleanup c0 None (cleanup p))).
Proof.
  intros [Hfresh Hapart Hclean] Hsome.
  pose proof (Hclean c0) as H0. rewrite Hsome in H0.
  destruct H0 as (h & d & -> & Htm0).
  constructor; cbn [runtime cleanup].
  - intros tm Hin. cbn in Hin. apply filter_In in Hin. now apply Hfresh.
  - intros c c' tm tm' Hne Hin Hin'.
    rewrite timersOf_clearInterval in Hin, Hin'.
    apply filter_In in Hin, Hin'. apply (Hapart c c'); tauto.
  - intro c. rewrite timersOf_clearInterval.
    unfold setCleanup. destruct (Component_eqb c0 c) eqn:E.
    + apply Component_eqb_true in E. subst c. rewrite Htm0; cbn.
      rewrite Nat.eqb_refl. reflexivity.
    + rewrite filter_all; [apply Hclean |].
      intros tm Hin. apply negb_true_iff, Nat.eqb_neq.
      apply (Hapart c c0 tm (mkTimer h (fetchOf c0) 5000 d)).
      * intros ->. rewrite Component_eqb_refl in E. discriminate.
      * exact Hin.
      * rewrite Htm0. now left.
Qed.

Lemma Inv_step (st : Step) (p p' : Page) :
  Inv p -> step st p = Some p' -> Inv p'.
Proof.
  intros HI Hstep. destruct st as [| c | c]; cbn in Hstep.
  - injection Hstep as <-. now apply Inv_tick.
  - destruct (cleanup p c) eqn:Hc; [discriminate |].
    pose proof (Inv_mount p c HI Hc) as HI'.
    destruct (effectOf c (runtime p)) as [cl rt].
    injection Hstep as <-. exact HI'.
  - destruct (cleanup p c) as [cl |] eqn:Hc; [| discriminate].
    injection Hstep as <-. now apply Inv_unmount.
Qed.

Lemma Inv_run (steps : list Step) (p p' : Page) :
  Inv p -> run steps p = Some p' -> Inv p'.
Proof.
  revert p. induction steps as [| st steps IH]; intros p HI Hrun; cbn in Hrun.
  - injection Hrun as <-. exact HI.
  - destruct (step st p) as [p1 |] eqn:Hstep; [| discriminate].
    apply (IH p1); [| exact Hrun]. exact (Inv_step st p p1 HI Hstep).
Qed.

Lemma Inv_reachable (p : Page) : reachable p -> Inv p.
Proof. intros [steps Hrun]. exact (Inv_run steps initialPage p Inv_initial Hrun). Qed.

(** ** A mounted component polls on schedule *)

Lemma Live_mount (c : Component) (p : Page) :
  Inv p -> cleanup p c = None ->
  Live c (callsOf c p) (clock (runtime p))
    (mkPage (snd (effectOf c (runtime p)))
       (setCleanup c (Some (fst (effectOf c (runtime p)))) (cleanup p))).
Proof.
  intros HI Hnone. rewrite effectOf_eq; cbn [fst snd].
  exists 0, (fresh (runtime p)).
  unfold callsOf; cbn [runtime cleanup].
  rewrite (timersOf_mounted c c (runtime p)
             (mkTimer (fresh (runtime p)) (fetchOf c) 5000
                (clock (runtime p) + 5000)) eq_refl),
    invocations_mounted.
  unfold setCleanup. rewrite Component_eqb_refl.
  pose proof (inv_cleanup p HI c) as Hclean. rewrite Hnone in Hclean.
  rewrite Hclean. cbn.
  rewrite Z.add_0_r. repeat split; lia.
Qed.

Lemma Live_tick (c : Component) (base : list Z) (t0 : Z) (p : Page) :
  Live c base t0 p -> Live c base t0 (mkPage (tick (runtime p)) (cleanup p)).
Proof.
  intros (k & h & Hc & Htm & Hclock & Hcalls). unfold callsOf in *.
  destruct (Z.eqb_spec (t0 + 5000 * (Z.of_nat k + 1)) (clock (runtime p) + 1))
    as [Hdue | Hnot].
  - exists (S k), h. unfold callsOf; cbn [runtime cleanup].
    rewrite timersOf_tick, invocations_tick, Htm, Hcalls. cbn [map filter].
    unfold rearm, isDue; cbn [due handle callback delay].
    rewrite (proj2 (Z.eqb_eq _ _) Hdue). cbn [map].
    split; [exact Hc |]. split; [| split].
    + do 2 f_equal. lia.
    + cbn [clock tick]. lia.
    + rewrite (seq_S (S k) 0), map_app, app_assoc. cbn [map].
      do 2 f_equal. lia.
  - exists k, h. unfold callsOf; cbn [runtime cleanup].
    rewrite timersOf_tick, invocations_tick, Htm, Hcalls. cbn [map filter].
    unfold rearm, isDue; cbn [due].
    rewrite (proj2 (Z.eqb_neq _ _) Hnot). cbn [map].
    rewrite app_nil_r.
    split; [exact Hc |]. split; [reflexivity |]. split; [| reflexivity].
    cbn [clock tick]. lia.
Qed.

Lemma Live_step (c : Component) (base : list Z) (t0 : Z) (st : Step)
  (p p' : Page) :
  Inv p -> Live c base t0 p -> st <> Unmount c -> step st p = Some p' ->
  Live c base t0 p'.
Proof.
  intros HI HL Hst Hstep. destruct st as [| c' | c']; cbn in Hstep.
  - injection Hstep as <-. now apply Live_tick.
  - destruct (cleanup p c') eqn:Hc'; [discriminate |].
    rewrite effectOf_eq in Hstep. injection Hstep as <-.
    destruct HL as (k & h & Hc & Htm & Hclock & Hcalls).
    assert (E : Component_eqb c' c = false).
    { apply Component_eqb_neq. intros ->. congruence. }
    exists k, h. unfold callsOf in *; cbn [runtime cleanup].
    rewrite (timersOf_mounted c c' (runtime p)
               (mkTimer (fresh (runtime p)) (fetchOf c') 5000
                  (clock (runtime p) + 5000)) eq_refl),
      invocations_mounted.
    unfold setCleanup. rewrite E, !app_nil_r. auto.
  - destruct (cleanup p c') as [cl |] eqn:Hc'; [| discriminate].
    injection Hstep as <-.
    destruct HL as (k & h & Hc & Htm & Hclock & Hcalls).
    assert (Hne : c' <> c) by congruence.
    pose proof (inv_cleanup p HI c') as Hclean. rewrite Hc' in Hclean.
    destruct Hclean as (h' & d' & -> & Htm').
    exists k, h. unfold callsOf in *; cbn [runtime cleanup].
    rewrite timersOf_clearInterval.
    unfold setCleanup. rewrite (Component_eqb_neq c' c Hne).
    split; [exact Hc |]. split; [| split; [exact Hclock | exact Hcalls]].
    rewrite filter_all; [exact Htm |].
    intros tm Hin. apply negb_true_iff, Nat.eqb_neq.
    apply (inv_apart p HI c c' tm (mkTimer h' (fetchOf c') 5000 d')).
    + congruence.
    + exact Hin.
    + rewrite Htm'. now left.
Qed.

Lemma Live_run (c : Component) (base : list Z) (t0 : Z) (steps : list Step)
  (p p' : Page) :
  Inv p -> Live c base t0 p -> ~ In (Unmount c) steps ->
  run steps p = Some p' -> Live c base t0 p'.
Proof.
  revert p. induction steps as [| st steps IH]; intros p HI HL Hno Hrun;
    cbn in Hrun.
  - injection Hrun as <-. exact HL.
  - destruct (step st p) as [p1 |] eqn:Hstep; [| discriminate].
    apply (IH p1).
    + exact (Inv_step st p p1 HI Hstep).
    + apply (Live_step c base t0 st p p1 HI HL); [| exact Hstep].
      intros ->. apply Hno. now left.
    + intro Hin. apply Hno. now right.
    + exact Hrun.
Qed.

Lemma Live_schedule (c : Component) (base : list Z) (t0 : Z) (p : Page) :
  Live c base t0 p ->
  callsOf c p = base ++ schedule t0 (clock (runtime p)).
Proof.
  intros (k & h & _ & _ & Hclock & ->). unfold schedule.
  assert (E : ((clock (runtime p) - t0) / 5000 = Z.of_nat k)%Z).
  { symmetry.
    apply (Z.div_unique _ _ _ (clock (runtime p) - t0 - 5000 * Z.of_nat k));
      lia. }
  rewrite E, Nat2Z.id. reflexivity.
Qed.

(** ** An unmounted component does not poll *)

Lemma Silent_step (c : Component) (st : Step) (p p' : Page) :
  Inv p -> cleanup p c = None -> st <> Mount c -> step st p = Some p' ->
  cleanup p' c = None /\ callsOf c p' = callsOf c p.
Proof.
  intros HI Hnone Hst Hstep. unfold callsOf.
  destruct st as [| c' | c']; cbn in Hstep.
  - injection Hstep as <-. cbn [runtime cleanup]. split; [exact Hnone |].
    rewrite invocations_tick.
    pose proof (inv_cleanup p HI c) as Hclean. rewrite Hnone in Hclean.
    rewrite Hclean. cbn. apply app_nil_r.
  - destruct (cleanup p c') eqn:Hc'; [discriminate |].
    rewrite effectOf_eq in Hstep. injection Hstep as <-.
    assert (E : Component_eqb c' c = false).
    { apply Component_eqb_neq. intros ->. now apply Hst. }
    cbn [runtime cleanup]. rewrite invocations_mounted.
    unfold setCleanup. rewrite E, app_nil_r. auto.
  - destruct (cleanup p c') as [cl |] eqn:Hc'; [| discriminate].
    injection Hstep as <-.
    assert (Hne : c' <> c) by congruence.
    pose proof (inv_cleanup p HI c') as Hclean. rewrite Hc' in Hclean.
    destruct Hclean as (h' & d' & -> & _).
    cbn [runtime cleanup]. unfold setCleanup.
    rewrite (Component_eqb_neq c' c Hne). auto.
Qed.

Lemma Silent_run (c : Component) (steps : list Step) (p p' : Page) :
  Inv p -> cleanup p c = None -> ~ In (Mount c) steps ->
  run steps p = Some p' ->
  cleanup p' c = None /\ callsOf c p' = callsOf c p.
Proof.
  revert p. induction steps as [| st steps IH]; intros p HI Hnone Hno Hrun;
    cbn in Hrun.
  - injection Hrun as <-. auto.
  - destruct (step st p) as [p1 |] eqn:Hstep; [| discriminate].
    destruct (Silent_step c st p p1 HI Hnone) as [Hnone1 Hcalls1];
      [intros ->; apply Hno; now left | exact Hstep |].
    destruct (IH p1) as [Hnone' Hcalls'].
    + exact (Inv_step st p p1 HI Hstep).
    + exact Hnone1.
    + intro Hin. apply Hno. now right.
    + exact Hrun.
    + split; [exact Hnone' | congruence].
Qed.

Lemma Silent_unmount (c : Component) (p p' : Page) :
  Inv p -> step (Unmount c) p = Some p' ->
  cleanup p' c = None /\ callsOf c p' = callsOf c p.
Proof.
  intros HI Hstep. cbn in Hstep.
  destruct (cleanup p c) as [cl |] eqn:Hc; [| discriminate].
  injection Hstep as <-.
  pose proof (inv_cleanup p HI c) as Hclean. rewrite Hc in Hclean.
  destruct Hclean as (h & d & -> & _).
  unfold callsOf; cbn [runtime cleanup]. unfold setCleanup.
  rewrite Component_eqb_refl. auto.
Qed.

(** ** The clock *)

Lemma clock_step (st : Step) (p p' : Page) :
  Inv p -> step st p = Some p' ->
  clock (runtime p') = (clock (runtime p) + elapsed [st])%Z.
Proof.
  intros HI Hstep. destruct st as [| c | c]; cbn in Hstep.
  - injection Hstep as <-. reflexivity.
  - destruct (cleanup p c); [discriminate |].
    rewrite effectOf_eq in Hstep. injection Hstep as <-. cbn. lia.
  - destruct (cleanup p c) as [cl |] eqn:Hc; [| discriminate].
    injection Hstep as <-.
    pose proof (inv_cleanup p HI c) as Hclean. rewrite Hc in Hclean.
    destruct Hclean as (h & d & -> & _). cbn. lia.
Qed.

Lemma clock_run (steps : list Step) (p p' : Page) :
  Inv p -> run steps p = Some p' ->
  clock (runtime p') = (clock (runtime p) + elapsed steps)%Z.
Proof.
  revert p. induction steps as [| st steps IH]; intros p HI Hrun; cbn in Hrun.
  - injection Hrun as <-. cbn. lia.
  - destruct (step st p) as [p1 |] eqn:Hstep; [| discriminate].
    rewrite (IH p1 (Inv_step st p p1 HI Hstep) Hrun).
    rewrite (clock_step st p p1 HI Hstep).
    unfold elapsed. cbn [filter]. destruct (Step_eqb Tick st); cbn [length]; lia.
Qed.

(** Time never blocks: any number of ticks can be run from any page. *)
Lemma run_ticks_total (n : nat) (p : Page) :
  exists p', run (repeat Tick n) p = Some p'.
Proof.
  revert p. induction n as [| n IH]; intro p; cbn.
  - now exists p.
  - apply IH.
Qed.

(** ** The lifecycle of a polling component *)

(** C8. For both polling components: the effect run at mount invokes the
    fetch at once and then every 5000 ms, for as long as the component
    stays mounted, whatever else happens on the page; unmounting clears
    the component's timer, so that its fetch is never invoked again
    (until a new mount), however much time passes. *)
Theorem polling_lifecycle (c : Component) (p p1 p2 : Page)
  (during : list Step) :
  reachable p ->
  step (Mount c) p = Some p1 ->
  run during p1 = Some p2 ->
  ~ In (Unmount c) during ->
  callsOf c p1 = callsOf c p ++ [clock (runtime p)] /\
  clock (runtime p2) = (clock (runtime p) + elapsed during)%Z /\
  callsOf c p2 =
    callsOf c p ++ schedule (clock (runtime p)) (clock (runtime p2)) /\
  forall (p3 p4 : Page) (after : list Step),
    step (Unmount c) p2 = Some p3 ->
    run after p3 = Some p4 ->
    ~ In (Mount c) after ->
    timersOf c (runtime p3) = [] /\
    clock (runtime p4) = (clock (runtime p2) + elapsed after)%Z /\
    callsOf c p4 = callsOf c p2.
Proof.
  intros Hreach Hmount Hduring Hno.
  pose proof (Inv_reachable p Hreach) as HI.
  pose proof (Inv_step _ _ _ HI Hmount) as HI1.
  pose proof (Inv_run _ _ _ HI1 Hduring) as HI2.
  assert (HL1 : Live c (callsOf c p) (clock (runtime p)) p1).
  { cbn in Hmount. destruct (cleanup p c) eqn:Hc; [discriminate |].
    pose proof (Live_mount c p HI Hc) as HL.
    destruct (effectOf c (runtime p)) as [cl rt].
    injection Hmount as <-. exact HL. }
  pose proof (Live_run c _ _ during p1 p2 HI1 HL1 Hno Hduring) as HL2.
  split; [| split; [| split]].
  - rewrite (Live_schedule c _ _ p1 HL1). f_equal.
    replace (clock (runtime p1)) with (clock (runtime p))
      by (rewrite (clock_step _ _ _ HI Hmount); unfold elapsed; cbn; lia).
    unfold schedule. rewrite Z.sub_diag. cbn. now rewrite Z.add_0_r.
  - rewrite (clock_run _ _ _ HI1 Hduring), (clock_step _ _ _ HI Hmount).
    unfold elapsed; cbn. lia.
  - exact (Live_schedule c _ _ p2 HL2).
  - intros p3 p4 after Hunmount Hafter Hno'.
    pose proof (Inv_step _ _ _ HI2 Hunmount) as HI3.
    destruct (Silent_unmount c p2 p3 HI2 Hunmount) as [Hnone3 Hcalls3].
    destruct (Silent_run c after p3 p4 HI3 Hnone3 Hno' Hafter) as [_ Hcalls4].
    split; [| split; [| congruence]].
    { pose proof (inv_cleanup p3 HI3 c) as Hclean.
      now rewrite Hnone3 in Hclean. }
    rewrite (clock_run _ _ _ HI3 Hafter), (clock_step _ _ _ HI2 Hunmount).
    unfold elapsed; cbn. lia.
Qed.

Lemma polling_lifecycle_witness :
  callsOf StatusPanel (pageAfter (mountBoth ++ tenSeconds)) =
    [0; 5000; 10000]%Z /\
  callsOf StatusPanel
    (pageAfter (mountBoth ++ tenSeconds ++ Unmount StatusPanel :: tenSeconds))
    = [0; 5000; 10000]%Z.
Proof.
  assert (Hreach : reachable initialPage) by (exists []; reflexivity).
  assert (Hmount : step (Mount StatusPanel) initialPage =
                   Some (pageAfter [Mount StatusPanel])) by reflexivity.
  assert (Hduring : run (Mount WiFiStatus :: tenSeconds)
                      (pageAfter [Mount StatusPanel]) =
                    Some (pageAfter (mountBoth ++ tenSeconds)))
    by (vm_compute; reflexivity).
  assert (Hno : ~ In (Unmount StatusPanel) (Mount WiFiStatus :: tenSeconds)).
  { intros [H | H]; [discriminate |].
    apply repeat_spec in H. discriminate. }
  destruct (polling_lifecycle StatusPanel initialPage _ _ _
              Hreach Hmount Hduring Hno) as (_ & _ & Hcalls & Hafter).
  split.
  - rewrite Hcalls. vm_compute. reflexivity.
  - destruct (Hafter
                (pageAfter (mountBoth ++ tenSeconds ++ [Unmount StatusPanel]))
                (pageAfter (mountBoth ++ tenSeconds ++
                            Unmount StatusPanel :: tenSeconds))
                tenSeconds) as (_ & _ & Hsame).
    + vm_compute. reflexivity.
    + vm_compute. reflexivity.
    + intro H. apply repeat_spec in H. discriminate.
    + rewrite Hsame, Hcalls. vm_compute. reflexivity.
Defined.

End EventLoopFacts.

(** * Further properties of WiFiStatus.jsx *)

Module WiFiExtra.
Import WiFi.
Local Open Scope list_scope.

(** ** The handlers, run on any state *)

Lemma fetchWiFiStatus_run (r : Outcome (GetBody (option WiFiStatusData)))
  (s : State) :
  fetchWiFiStatus r s =
  (tt,
   mkState (fetched r (wifiStatus s)) (networks s) false (loading s)
     (scanning s) (showNetworkList s) (connecting s) (selectedNetwork s)
     (password s),
   HttpGet "/api/wifi/status"
   :: match r with
      | Rejected error => [ConsoleError "Failed to fetch WiFi status:" error]
      | Resolved _ => []
      end).
Proof. destruct r as [e | [[] d]]; reflexivity. Qed.

Lemma scanNetworks_run (r : Outcome (GetBody (list NetworkEntry)))
  (s : State) :
  scanNetworks r s =
  (tt,
   mkState (wifiStatus s) (fetched r (networks s)) (initialLoading s)
     (loading s) false
     (match r with
      | Resolved body => if success body then true else showNetworkList s
      | Rejected _ => showNetworkList s
      end)
     (connecting s) (selectedNetwork s) (password s),
   HttpGet "/api/wifi/networks"
   :: match r with
      | Rejected error => [ConsoleError "Failed to scan networks:" error]
      | Resolved _ => []
      end).
Proof. destruct r as [e | [[] d]]; reflexivity. Qed.

(** ** scanNetworks *)

(** X1. A successful scan shows the list exactly as the server sent it
    and switches the spinner off, but does not touch the connection
    attempt: selection and typed password survive, so a credential form
    that was open stays open for the old entry, whether or not the new
    list still contains it. *)
Theorem scan_success_keeps_attempt (s : State) (l : list NetworkEntry) :
  let s' := final_state (scanNetworks (Resolved (mkGetBody true l)) s) in
  networks s' = l /\
  showNetworkList s' = true /\
  scanning s' = false /\
  selectedNetwork s' = selectedNetwork s /\
  password s' = password s /\
  trace (scanNetworks (Resolved (mkGetBody true l)) s) =
    [HttpGet "/api/wifi/networks"] /\
  (forall network,
      initialLoading s = false ->
      selectedNetwork s = Some network ->
      connected network = false ->
      credentialForm s' = Some network).
Proof.
  cbv zeta. rewrite scanNetworks_run. cbn.
  repeat (split; [reflexivity |]).
  intros network Hil Hsel Hopen. unfold credentialForm; cbn.
  rewrite Hil, Hsel, Hopen. reflexivity.
Qed.

Lemma scan_success_keeps_attempt_witness :
  credentialForm
    (final_state (scanNetworks (Resolved (mkGetBody true [home])) entering)) =
  Some lab.
Proof.
  pose proof (scan_success_keeps_attempt entering [home]) as H.
  cbv zeta in H. destruct H as (_ & _ & _ & _ & _ & _ & H).
  apply H; reflexivity.
Defined.

(** X2. A failed scan, rejected or answered [success:false], changes
    nothing but the spinner: the list on display, its visibility and
    the connection attempt are as before. It never alerts; only a
    rejected request is logged. *)
Theorem scan_failure_keeps_list (s : State)
  (r : Outcome (GetBody (list NetworkEntry))) :
  failed r ->
  final_state (scanNetworks r s) =
    mkState (wifiStatus s) (networks s) (initialLoading s) (loading s)
      false (showNetworkList s) (connecting s) (selectedNetwork s)
      (password s) /\
  trace (scanNetworks r s) =
    HttpGet "/api/wifi/networks"
    :: match r with
       | Rejected error => [ConsoleError "Failed to scan networks:" error]
       | Resolved _ => []
       end /\
  existsb isAlert (trace (scanNetworks r s)) = false.
Proof.
  intro Hfail. rewrite scanNetworks_run.
  destruct r as [e | [ok d]]; cbn in *; subst; repeat split.
Qed.

Lemma scan_failure_keeps_list_witness :
  final_state (scanNetworks (Rejected "timeout") entering) = entering.
Proof.
  exact (proj1 (scan_failure_keeps_list entering (Rejected "timeout") I)).
Defined.

(** ** connectToNetwork *)

(** X3. When the connect request is rejected, the handler logs the error
    and raises one alert with the fixed text 'Failed to connect to
    network', whatever the error; list, selection and password are as
    before, and the [connecting] flag is reset. *)
Theorem connect_rejected_alerts_fixed_text (s : State)
  (network : NetworkEntry) (error : string)
  (refetch : Outcome (GetBody (option WiFiStatusData))) :
  selectedNetwork s = Some network ->
  trace (connectToNetwork (Rejected error) refetch s) =
    [HttpPost "/api/wifi/connect" (ssid network) (password s);
     ConsoleError "Connection failed:" error;
     Alert "Failed to connect to network"] /\
  final_state (connectToNetwork (Rejected error) refetch s) =
    mkState (wifiStatus s) (networks s) (initialLoading s) (loading s)
      (scanning s) (showNetworkList s) false (selectedNetwork s) (password s).
Proof.
  intro H. split; run_handler s.
Qed.

Lemma connect_rejected_alerts_fixed_text_witness :
  final_state (connectToNetwork (Rejected "ECONNRESET") online entering) =
  entering.
Proof.
  exact (proj2 (connect_rejected_alerts_fixed_text entering lab "ECONNRESET"
                  online eq_refl)).
Defined.

(** X4. After a successful connect the displayed status is the data of
    the status request the handler issues, when that request succeeds;
    when it fails, the old status stays on display and no alert is
    raised: the attempt is cleared and the list closed all the same. *)
Theorem connect_success_shows_refetched_status (s : State)
  (network : NetworkEntry) (m : option string)
  (refetch : Outcome (GetBody (option WiFiStatusData))) :
  selectedNetwork s = Some network ->
  let result := connectToNetwork (Resolved (mkConnectBody true m)) refetch s in
  wifiStatus (final_state result) = fetched refetch (wifiStatus s) /\
  final_state result =
    mkState (fetched refetch (wifiStatus s)) (networks s) false (loading s)
      (scanning s) false false None "" /\
  existsb isAlert (trace result) = false.
Proof.
  intro H. run_handler s.
  destruct refetch as [e | [[] d]]; cbn; repeat split.
Qed.

Lemma connect_success_shows_refetched_status_witness :
  wifiStatus
    (final_state
       (connectToNetwork (Resolved (mkConnectBody true None))
          (Resolved (mkGetBody true
             (Some (mkWiFiStatusData true (Some "lab"))))) entering)) =
  Some (mkWiFiStatusData true (Some "lab")).
Proof.
  exact (proj1 (connect_success_shows_refetched_status entering lab None
                  (Resolved (mkGetBody true
                     (Some (mkWiFiStatusData true (Some "lab"))))) eq_refl)).
Defined.

(** ** Cancel and the Enter key *)

(** X5. Cancel discards the connection attempt and closes the credential
    form without any request; the list stays as it was. The next entry
    picked from the list starts with an empty password. *)
Theorem cancel_discards_attempt (s : State) :
  let s' := final_state (cancel s) in
  attemptCleared s' /\
  credentialForm s' = None /\
  listShown s' = listShown s /\
  networks s' = networks s /\
  trace (cancel s) = [] /\
  (forall network,
      listShown s = true -> connected network = false ->
      credentialForm (final_state (selectNetwork network s')) = Some network /\
      password (final_state (selectNetwork network s')) = "").
Proof.
  destruct s as [ws nets il lo sc sh co sel pw]; cbn.
  split; [split; reflexivity |].
  split; [unfold credentialForm; cbn; destruct il, sh; reflexivity |].
  repeat (split; [reflexivity |]).
  intros network Hshown Hopen. unfold credentialForm, listShown in *; cbn in *.
  destruct il, sh; try discriminate. cbn. rewrite Hopen. split; reflexivity.
Qed.

Lemma cancel_discards_attempt_witness :
  password (final_state (selectNetwork lab (final_state (cancel entering)))) =
  "".
Proof.
  pose proof (cancel_discards_attempt entering) as H. cbv zeta in H.
  destruct H as (_ & _ & _ & _ & _ & H).
  exact (proj2 (H lab eq_refl eq_refl)).
Defined.

(** X6. While a connect request is in flight the Connect button is
    disabled, but the Enter key in the password input is not: it runs
    [connectToNetwork] again and posts the same selection and password.
    Any other key does nothing. *)
Theorem enter_key_ignores_connecting (s : State) (network : NetworkEntry)
  (r : Outcome ConnectBody)
  (refetch : Outcome (GetBody (option WiFiStatusData))) :
  credentialForm s = Some network ->
  connecting s = true ->
  handler (ClickConnect r refetch) s = None /\
  handler (PressKey "Enter" r refetch) s = Some (connectToNetwork r refetch) /\
  In (HttpPost "/api/wifi/connect" (ssid network) (password s))
     (trace (connectToNetwork r refetch s)) /\
  (forall key, key <> "Enter" ->
     handler (PressKey key r refetch) s = Some (keyPress key r refetch) /\
     keyPress key r refetch s = (tt, s, [])).
Proof.
  intros Hform Hco. unfold handler. rewrite Hform, Hco. cbn [negb].
  split; [reflexivity |]. split; [reflexivity |]. split.
  - unfold credentialForm in Hform.
    destruct s as [ws nets il lo sc sh co [sel |] pw]; cbn in *;
      destruct il, sh; try discriminate.
    destruct (connected sel); cbn in Hform; [discriminate |].
    injection Hform as ->.
    destruct r as [e | [[] m]]; destruct refetch as [e' | [[] d]]; now left.
  - intros key Hkey. split; [reflexivity |].
    unfold keyPress. destruct (String.eqb_spec key "Enter"); [contradiction |].
    reflexivity.
Qed.

Lemma enter_key_ignores_connecting_witness :
  handler (ClickConnect badPassword online) submitting = None /\
  In (HttpPost "/api/wifi/connect" "lab" "hunter2")
     (trace (connectToNetwork badPassword online submitting)).
Proof.
  destruct (enter_key_ignores_connecting submitting lab badPassword online
              eq_refl eq_refl) as (Hbutton & _ & Hpost & _).
  split; [exact Hbutton | exact Hpost].
Defined.

(** ** All handlers at once *)

Lemma credentialForm_selected (s : State) (network : NetworkEntry) :
  credentialForm s = Some network ->
  selectedNetwork s = Some network /\
  connected network = false /\
  initialLoading s = false /\
  showNetworkList s = true.
Proof.
  unfold credentialForm.
  destruct (initialLoading s), (showNetworkList s),
    (selectedNetwork s) as [sel |]; try discriminate.
  destruct (connected sel) eqn:Hc; cbn; [discriminate |].
  intro H. injection H as <-. auto.
Qed.

Lemma connectToNetwork_final (r : Outcome ConnectBody)
  (refetch : Outcome (GetBody (option WiFiStatusData))) (s : State)
  (network : NetworkEntry) :
  selectedNetwork s = Some network ->
  final_state (connectToNetwork r refetch s) =
  match r with
  | Resolved (mkConnectBody true _) =>
      mkState (fetched refetch (wifiStatus s)) (networks s) false (loading s)
        (scanning s) false false None ""
  | _ =>
      mkState (wifiStatus s) (networks s) (initialLoading s) (loading s)
        (scanning s) (showNetworkList s) false (selectedNetwork s)
        (password s)
  end.
Proof.
  intro H. destruct s; cbn in H; subst.
  destruct r as [e | [[] m]]; destruct refetch as [e' | [[] d]]; reflexivity.
Qed.

Lemma connectToNetwork_alerts (r : Outcome ConnectBody)
  (refetch : Outcome (GetBody (option WiFiStatusData))) (s : State)
  (network : NetworkEntry) :
  selectedNetwork s = Some network ->
  filter isAlert (trace (connectToNetwork r refetch s)) =
  match r with
  | Rejected _ => [Alert "Failed to connect to network"]
  | Resolved body =>
      if connect_success body then []
      else [Alert (or_else (message body) "Failed to connect")]
  end.
Proof.
  intro H. destruct s; cbn in H; subst.
  destruct r as [e | [[] m]]; destruct refetch as [e' | [[] d]]; reflexivity.
Qed.

(** X7. The alerts of any action: none, unless the action submits the
    credential form (the Connect button, or Enter in the password
    input) and the connect request fails; then exactly one, with the
    fixed text for a rejected request and the server's message or
    'Failed to connect' for [success:false]. Polls and scans never
    alert. *)
Theorem alerts_only_from_failed_connect (a : Action) (s : State)
  (h : Eff State unit) :
  handler a s = Some h ->
  filter isAlert (trace (h s)) =
  match submission a with
  | Some (Rejected _) => [Alert "Failed to connect to network"]
  | Some (Resolved body) =>
      if connect_success body then []
      else [Alert (or_else (message body) "Failed to connect")]
  | None => []
  end.
Proof.
  intro Hh. destruct a; cbn [handler submission] in *.
  - injection Hh as <-. rewrite fetchWiFiStatus_run. destruct r; reflexivity.
  - destruct (negb (initialLoading s) && negb (scanning s)); [| discriminate].
    injection Hh as <-. rewrite scanNetworks_run. destruct r; reflexivity.
  - destruct (listShown s && negb (scanning s)); [| discriminate].
    injection Hh as <-. rewrite scanNetworks_run. destruct r; reflexivity.
  - destruct (listShown s); [| discriminate].
    destruct (nth_error (networks s) index); [| discriminate].
    injection Hh as <-. reflexivity.
  - destruct (credentialForm s); [| discriminate].
    injection Hh as <-. reflexivity.
  - destruct (credentialForm s) as [network |] eqn:Hform; [| discriminate].
    injection Hh as <-. unfold keyPress.
    destruct (String.eqb key "Enter"); [| reflexivity].
    apply credentialForm_selected in Hform.
    apply (connectToNetwork_alerts r refetch s network). tauto.
  - destruct (credentialForm s); [| discriminate].
    injection Hh as <-. reflexivity.
  - destruct (credentialForm s) as [network |] eqn:Hform; [| discriminate].
    destruct (negb (connecting s)); [| discriminate].
    injection Hh as <-.
    apply credentialForm_selected in Hform.
    apply (connectToNetwork_alerts r refetch s network). tauto.
Qed.

Lemma alerts_only_from_failed_connect_witness :
  filter isAlert (trace (connectToNetwork badPassword online entering)) =
  [Alert "bad password"].
Proof.
  exact (alerts_only_from_failed_connect (ClickConnect badPassword online)
           entering (connectToNetwork badPassword online) eq_refl).
Defined.



(** ** Runs of actions *)

Lemma settled_initial : settled initial.
Proof. repeat split; intros; (reflexivity || discriminate). Qed.

Lemma settled_step (a : Action) (s : State) (h : Eff State unit) :
  settled s -> handler a s = Some h -> settled (final_state (h s)).
Proof.
  intros (Hsc & Hco & Hlo & Hinit & Hlist & Hpw) Hh.
  destruct a; cbn [handler] in Hh.
  - injection Hh as <-. rewrite fetchWiFiStatus_run.
    unfold settled; cbn. repeat split; auto. discriminate.
  - unfold listShown in Hh. destruct (initialLoading s) eqn:Hil;
      [discriminate |]. rewrite Hsc in Hh. injection Hh as <-.
    rewrite scanNetworks_run. unfold settled; cbn.
    repeat split; auto; try congruence.
    destruct r as [e | [[] d]]; auto. discriminate.
  - unfold listShown in Hh. destruct (initialLoading s) eqn:Hil;
      [discriminate |]. destruct (showNetworkList s) eqn:Hsh;
      [| discriminate]. rewrite Hsc in Hh. injection Hh as <-.
    rewrite scanNetworks_run. unfold settled; cbn.
    repeat split; auto; try congruence.
    destruct r as [e | [[] d]]; cbn; intro; congruence.
  - unfold listShown in Hh. destruct (initialLoading s) eqn:Hil;
      [discriminate |]. destruct (showNetworkList s) eqn:Hsh;
      [| discriminate].
    destruct (nth_error (networks s) index); [| discriminate].
    injection Hh as <-. unfold settled; cbn.
    repeat split; auto; congruence.
  - destruct (credentialForm s) as [network |] eqn:Hform; [| discriminate].
    injection Hh as <-.
    destruct (credentialForm_selected s network Hform) as (Hsel & _ & Hil & Hsh).
    unfold settled; cbn. repeat split; auto; congruence.
  - destruct (credentialForm s) as [network |] eqn:Hform; [| discriminate].
    injection Hh as <-.
    destruct (credentialForm_selected s network Hform) as (Hsel & _ & Hil & Hsh).
    unfold keyPress. destruct (String.eqb key "Enter").
    + rewrite (connectToNetwork_final r refetch s network Hsel).
      destruct r as [e | [[] m]]; unfold settled; cbn;
        repeat split; auto; congruence.
    + unfold settled; cbn. repeat split; auto.
  - destruct (credentialForm s) as [network |] eqn:Hform; [| discriminate].
    injection Hh as <-.
    destruct (credentialForm_selected s network Hform) as (Hsel & _ & Hil & Hsh).
    unfold settled; cbn. repeat split; auto; congruence.
  - destruct (credentialForm s) as [network |] eqn:Hform; [| discriminate].
    destruct (negb (connecting s)); [| discriminate].
    injection Hh as <-.
    destruct (credentialForm_selected s network Hform) as (Hsel & _ & Hil & Hsh).
    rewrite (connectToNetwork_final r refetch s network Hsel).
    destruct r as [e | [[] m]]; unfold settled; cbn;
      repeat split; auto; congruence.
Qed.

Lemma settled_run (actions : list Action) (s s' : State) (t : list Event) :
  settled s -> run actions s = Some (s', t) -> settled s'.
Proof.
  revert s t. induction actions as [| a rest IH]; intros s t Hs Hrun;
    cbn in Hrun.
  - injection Hrun as <- _. exact Hs.
  - destruct (handler a s) as [h |] eqn:Hh; [| discriminate].
    pose proof (settled_step a s h Hs Hh) as Hs1.
    destruct (h s) as [[u s1] t1]. cbn in Hs1.
    destruct (run rest s1) as [[s2 t2] |] eqn:Hrest; [| discriminate].
    injection Hrun as <- _. exact (IH s1 t2 Hs1 Hrest).
Qed.

(** X9. When every handler completes before the next action, every
    state the component reaches has both spinners off and [loading]
    false; before the first poll completes nothing has happened at all;
    a network is selected only while the list is shown, and a password
    is typed only while a network is selected. *)
Theorem reachable_settled (s : State) :
  reachable s ->
  scanning s = false /\
  connecting s = false /\
  loading s = false /\
  (initialLoading s = true -> s = initial) /\
  (showNetworkList s = false -> selectedNetwork s = None) /\
  (selectedNetwork s = None -> password s = "").
Proof.
  intros (actions & t & Hrun).
  exact (settled_run actions initial s t settled_initial Hrun).
Qed.

Lemma reachable_settled_witness :
  scanning entering = false /\ connecting entering = false.
Proof.
  assert (Hreach : reachable entering).
  { exists typing. eexists. vm_compute. reflexivity. }
  destruct (reachable_settled entering Hreach) as (Hsc & Hco & _).
  split; [exact Hsc | exact Hco].
Defined.

(** Polls are always enabled, and a run of polls is a fold. *)
Lemma polls_run (rs : list (Outcome (GetBody (option WiFiStatusData))))
  (s : State) :
  exists t,
    run (map Poll rs) s =
      Some (mkState (fold_left (fun cur r => fetched r cur) rs (wifiStatus s))
              (networks s)
              (match rs with [] => initialLoading s | _ => false end)
              (loading s) (scanning s) (showNetworkList s) (connecting s)
              (selectedNetwork s) (password s),
            t) /\
    filter isAlert t = [] /\
    length (filter isGet t) = length rs.
Proof.
  revert s. induction rs as [| r rest IH]; intro s.
  - exists []. destruct s; repeat split.
  - cbn [map run handler]. rewrite fetchWiFiStatus_run.
    destruct (IH (mkState (fetched r (wifiStatus s)) (networks s) false
                    (loading s) (scanning s) (showNetworkList s)
                    (connecting s) (selectedNetwork s) (password s)))
      as (t & Hrun & Halert & Hget).
    rewrite Hrun. cbn [wifiStatus networks initialLoading loading scanning
                       showNetworkList connecting selectedNetwork password].
    eexists. split; [| split].
    + cbn [fold_left]. destruct rest; reflexivity.
    + cbn. destruct r; cbn; exact Halert.
    + cbn. destruct r; cbn; rewrite Hget; reflexivity.
Qed.

Lemma fold_fetched_failed {D} (rs : list (Outcome (GetBody D))) :
  Forall failed rs ->
  forall cur, fold_left (fun cur r => fetched r cur) rs cur = cur.
Proof.
  induction 1 as [| r rest Hr _ IH]; intro cur; cbn; [reflexivity |].
  rewrite IH. destruct r as [e | [ok d]]; cbn in *; subst; reflexivity.
Qed.

(** X10. Any sequence of polls can run from any state; afterwards the
    displayed status is the data of the last poll answered with
    [success:true], or the status from before when there was none:
    failed polls are invisible. The polls issue one request each, never
    alert, end the initial loading phase, and change nothing else. *)
Theorem polls_show_last_success
  (rs : list (Outcome (GetBody (option WiFiStatusData)))) (s : State) :
  exists s' t,
    run (map Poll rs) s = Some (s', t) /\
    wifiStatus s' = fold_left (fun cur r => fetched r cur) rs (wifiStatus s) /\
    (rs <> [] -> initialLoading s' = false) /\
    (Forall failed rs -> wifiStatus s' = wifiStatus s) /\
    (networks s', showNetworkList s', selectedNetwork s', password s') =
      (networks s, showNetworkList s, selectedNetwork s, password s) /\
    filter isAlert t = [] /\
    length (filter isGet t) = length rs.
Proof.
  destruct (polls_run rs s) as (t & Hrun & Halert & Hget).
  eexists. exists t. split; [exact Hrun |]. cbn.
  split; [reflexivity |].
  split; [| split; [| split; [reflexivity | split; assumption]]].
  - destruct rs; [congruence | reflexivity].
  - intro Hall. now apply fold_fetched_failed.
Qed.

Lemma polls_show_last_success_witness :
  exists s' t,
    run (map Poll [Rejected "timeout"; Resolved (mkGetBody false None)])
      entering = Some (s', t) /\
    wifiStatus s' = wifiStatus entering.
Proof.
  destruct (polls_show_last_success
              [Rejected "timeout"; Resolved (mkGetBody false None)] entering)
    as (s' & t & Hrun & _ & _ & Hkeep & _).
  exists s', t. split; [exact Hrun |].
  apply Hkeep. repeat constructor.
Defined.

(** X11. From the first render, once one or more polls have completed
    and all of them failed, the skeleton is gone and the header shows
    the offline icon with 'Not connected'; no alert was raised. *)
Theorem header_after_failed_polls
  (rs : list (Outcome (GetBody (option WiFiStatusData)))) :
  rs <> [] -> Forall failed rs ->
  exists s' t,
    run (map Poll rs) initial = Some (s', t) /\
    header s' = StatusLine false (Some "Not connected") /\
    filter isAlert t = [].
Proof.
  intros Hne Hall.
  destruct (polls_run rs initial) as (t & Hrun & Halert & _).
  eexists. exists t. split; [exact Hrun |]. split; [| exact Halert].
  unfold header; cbn. destruct rs as [| r0 rest]; [congruence |].
  rewrite (fold_fetched_failed (r0 :: rest) Hall). reflexivity.
Qed.

Lemma header_after_failed_polls_witness :
  exists s' t,
    run (map Poll [Rejected "timeout"]) initial = Some (s', t) /\
    header s' = StatusLine false (Some "Not connected").
Proof.
  destruct (header_after_failed_polls [Rejected "timeout"])
    as (s' & t & Hrun & Hheader & _).
  - discriminate.
  - repeat constructor.
  - exists s', t. split; [exact Hrun | exact Hheader].
Defined.

(** X16. The whole connect workflow. In any state with the list on
    screen and no connect in flight, picking a list entry that is not
    connected, typing a password and pressing Connect is always
    possible; when the server answers [success:true] exactly one
    connect request went out, carrying the entry's ssid and the typed
    password, followed by the status request, and the component is
    back to a closed list with no attempt left. *)
Theorem connect_workflow (s : State) (index : nat) (network : NetworkEntry)
  (typed : string) (m : option string)
  (refetch : Outcome (GetBody (option WiFiStatusData))) :
  listShown s = true ->
  connecting s = false ->
  nth_error (networks s) index = Some network ->
  connected network = false ->
  run [ClickNetwork index; TypePassword typed;
       ClickConnect (Resolved (mkConnectBody true m)) refetch] s =
  Some (mkState (fetched refetch (wifiStatus s)) (networks s) false
          (loading s) (scanning s) false false None "",
        HttpPost "/api/wifi/connect" (ssid network) typed
        :: HttpGet "/api/wifi/status"
        :: match refetch with
           | Rejected error =>
               [ConsoleError "Failed to fetch WiFi status:" error]
           | Resolved _ => []
           end).
Proof.
  intros Hshown Hco Hnth Hopen. unfold listShown in Hshown.
  destruct s as [ws nets il lo sc sh co sel pw]; cbn in *. subst co.
  destruct il, sh; try discriminate.
  cbn. rewrite Hnth. cbn. unfold credentialForm; cbn. rewrite Hopen. cbn.
  unfold credentialForm; cbn. rewrite Hopen. cbn.
  destruct refetch as [e | [[] d]]; reflexivity.
Qed.

Lemma connect_workflow_witness :
  exists s' t,
    run [ClickNetwork 0; TypePassword "s3cret";
         ClickConnect (Resolved (mkConnectBody true None)) online] entering =
    Some (s', t) /\
    In (HttpPost "/api/wifi/connect" "lab" "s3cret") t.
Proof.
  eexists. eexists. split.
  - exact (connect_workflow entering 0 lab "s3cret" None online
             eq_refl eq_refl eq_refl eq_refl).
  - now left.
Defined.

End WiFiExtra.

(** * Further properties of the polling effects *)

Module EventLoopExtra.
Import EventLoop.
Local Open Scope list_scope.

Lemma timers_split (l : list Timer) :
  length l =
  length (filter (fun tm => Callback_eqb (callback tm) FetchContainerStatus) l)
  + length (filter (fun tm => Callback_eqb (callback tm) FetchWiFiStatus) l).
Proof.
  induction l as [| tm l IH]; cbn; [reflexivity |].
  destruct (callback tm); cbn; lia.
Qed.

(** X15. On every reachable page the timer table holds exactly one
    timer per mounted component, however often the components were
    mounted and unmounted before: no timer is leaked, and with nothing
    mounted the table is empty. *)
Theorem one_timer_per_mounted_component (p : Page) :
  reachable p ->
  length (timers (runtime p)) = length (mounted p) /\
  (forall c, In c (mounted p) <-> length (timersOf c (runtime p)) = 1) /\
  (mounted p = [] -> timers (runtime p) = []).
Proof.
  intro Hreach. pose proof (EventLoopFacts.Inv_reachable p Hreach) as HI.
  pose proof (inv_cleanup p HI StatusPanel) as Hpanel.
  pose proof (inv_cleanup p HI WiFiStatus) as Hwifi.
  assert (Hlen : length (timers (runtime p)) = length (mounted p)).
  { rewrite timers_split. unfold timersOf in *. cbn [fetchOf] in *.
    unfold mounted; cbn [filter].
    destruct (cleanup p StatusPanel), (cleanup p WiFiStatus);
      repeat match goal with
        | H : exists _, _ |- _ => destruct H
        | H : _ /\ _ |- _ => destruct H
        end;
      repeat match goal with H : filter _ _ = _ |- _ => rewrite H end;
      reflexivity. }
  split; [exact Hlen |]. split.
  - intro c. unfold mounted; cbn [filter].
    destruct c;
      destruct (cleanup p StatusPanel), (cleanup p WiFiStatus);
      repeat match goal with
        | H : exists _, _ |- _ => destruct H
        | H : _ /\ _ |- _ => destruct H
        end;
      repeat match goal with H : timersOf _ _ = _ |- _ => rewrite H end;
      cbn; intuition (try discriminate; auto).
  - intro Hnone. rewrite Hnone in Hlen.
    destruct (timers (runtime p)); [reflexivity | discriminate].
Qed.

Lemma one_timer_per_mounted_component_witness :
  length (timers (runtime
    (pageAfter (mountBoth ++ [Unmount StatusPanel; Mount StatusPanel;
                              Unmount WiFiStatus])))) = 1.
Proof.
  assert (Hreach : reachable
            (pageAfter (mountBoth ++ [Unmount StatusPanel; Mount StatusPanel;
                                      Unmount WiFiStatus]))).
  { exists (mountBoth ++ [Unmount StatusPanel; Mount StatusPanel;
                          Unmount WiFiStatus]). reflexivity. }
  exact (proj1 (one_timer_per_mounted_component _ Hreach)).
Defined.

End EventLoopExtra.

(** * Further properties of StatusPanel.jsx *)

Module StatusPanelExtra.
Import StatusPanel.

(** ** Colour and text of a status *)

(** X12. Colour and text of a status never disagree: the colour is green
    exactly when the text is 'Running', gray exactly when it is
    'Unknown', and red exactly when it is 'Not Found' or 'Stopped'. A
    record with [running] true renders as running whatever its
    [status] says, 'not_found' included. *)
Theorem color_and_text_agree (st : option ContainerStatus) :
  (getStatusColor st = green <-> getStatusText st = "Running") /\
  (getStatusColor st = gray <-> getStatusText st = "Unknown") /\
  (getStatusColor st = red <->
     getStatusText st = "Not Found" \/ getStatusText st = "Stopped") /\
  (forall label,
     getStatusText (Some (mkContainerStatus true label)) = "Running").
Proof.
  split; [| split; [| split; [| reflexivity]]];
    destruct st as [[[] [label |]] |]; cbn;
    try destruct (String.eqb label "not_found");
    (split; intro H; try destruct H as [H | H];
     try discriminate H; auto).
Qed.

(** ** Sequences of polls *)

Lemma fetchContainerStatus_run (r : Outcome (GetBody (option Snapshot)))
  (s : State) :
  fetchContainerStatus r s =
  (tt,
   mkState (displayed r (containersData s)) false,
   HttpGet "/api/containers/status"
   :: match r with
      | Rejected error =>
          [ConsoleError "Failed to fetch container status:" error]
      | Resolved _ => []
      end).
Proof. destruct s as [cd l]. destruct r as [e | [[] d]]; reflexivity. Qed.

Lemma container_polls_run (rs : list (Outcome (GetBody (option Snapshot))))
  (s : State) :
  final_state (polls rs s) =
    mkState (fold_left (fun cur r => displayed r cur) rs (containersData s))
      (match rs with [] => loading s | _ => false end) /\
  filter isAlert (trace (polls rs s)) = [] /\
  length (filter isGet (trace (polls rs s))) = length rs.
Proof.
  revert s. induction rs as [| r rest IH]; intro s.
  - destruct s. repeat split.
  - cbn [polls]. unfold bind. rewrite fetchContainerStatus_run.
    specialize (IH (mkState (displayed r (containersData s)) false)).
    destruct (polls rest (mkState (displayed r (containersData s)) false))
      as [[u s'] t'].
    unfold final_state, trace in *. cbn [fst snd] in *.
    destruct IH as (Hs & Halert & Hget). split; [| split].
    + rewrite Hs. cbn. destruct rest; reflexivity.
    + destruct r; cbn; exact Halert.
    + destruct r; cbn; rewrite Hget; reflexivity.
Qed.

Lemma fold_displayed_unsuccessful
  (rs : list (Outcome (GetBody (option Snapshot)))) :
  Forall (fun r => exists d, r = Resolved (mkGetBody false d)) rs ->
  forall cur, fold_left (fun cur r => displayed r cur) rs cur = cur.
Proof.
  induction 1 as [| r rest (d & ->) _ IH]; intro cur; cbn; [reflexivity |].
  apply IH.
Qed.

(** X13. After any sequence of polls the panel displays what the last
    decisive poll left: nothing after a rejected request, the response
    data after [success:true]; polls answered [success:false] are
    passed over. So one rejected poll at the end wipes the display
    (every line gray 'Unknown') whatever was shown before, and trailing
    [success:false] answers neither clear nor restore it. One request
    per poll, no alert, and the loading placeholders never return. *)
Theorem polls_display_last_decisive
  (rs : list (Outcome (GetBody (option Snapshot)))) (s : State) :
  containersData (final_state (polls rs s)) =
    fold_left (fun cur r => displayed r cur) rs (containersData s) /\
  (rs <> [] -> loading (final_state (polls rs s)) = false) /\
  (forall before error,
     rs = (before ++ [Rejected error])%list ->
     containersData (final_state (polls rs s)) = None /\
     statusLines (final_state (polls rs s)) =
       [(gray, "Unknown"); (gray, "Unknown"); (gray, "Unknown")]) /\
  (forall before d after,
     rs = (before ++ Resolved (mkGetBody true d) :: after)%list ->
     Forall (fun r => exists d', r = Resolved (mkGetBody false d')) after ->
     containersData (final_state (polls rs s)) = d) /\
  filter isAlert (trace (polls rs s)) = [] /\
  length (filter isGet (trace (polls rs s))) = length rs.
Proof.
  destruct (container_polls_run rs s) as (Hs & Halert & Hget).
  rewrite Hs. cbn [containersData loading].
  split; [reflexivity |]. split; [| split; [| split; [| split; assumption]]].
  - destruct rs; [congruence | reflexivity].
  - intros before error ->. unfold statusLines. cbn [containersData].
    rewrite fold_left_app. cbn. split; reflexivity.
  - intros before d after -> Hafter. rewrite fold_left_app. cbn [fold_left].
    now rewrite (fold_displayed_unsuccessful after Hafter).
Qed.

Lemma polls_display_last_decisive_witness :
  containersData
    (final_state
       (polls [Resolved (mkGetBody true (Some snapshot1)); refused;
               Rejected "timeout"] initial)) = None /\
  containersData
    (final_state
       (polls [Rejected "timeout"; Resolved (mkGetBody true (Some snapshot1));
               refused] initial)) = Some snapshot1.
Proof.
  split.
  - destruct (polls_display_last_decisive
                [Resolved (mkGetBody true (Some snapshot1)); refused;
                 Rejected "timeout"] initial) as (_ & _ & Hwipe & _).
    exact (proj1 (Hwipe [Resolved (mkGetBody true (Some snapshot1)); refused]
                    "timeout" eq_refl)).
  - destruct (polls_display_last_decisive
                [Rejected "timeout"; Resolved (mkGetBody true (Some snapshot1));
                 refused] initial) as (_ & _ & _ & Hkeep & _).
    apply (Hkeep [Rejected "timeout"] (Some snapshot1) [refused] eq_refl).
    repeat constructor. now exists None.
Defined.

End StatusPanelExtra.

(** * The services rows of the status panel *)

Module ServicesExtra.
Import StatusPanel.
Import QArith_base Qround Lqa.

(** [Math_round] gives the nearest integer, a tie going up. *)
Lemma Math_round_nearest (x : Q) :
  (inject_Z (Math_round x) - (1 # 2) <= x)%Q /\
  (x < inject_Z (Math_round x) + (1 # 2))%Q.
Proof.
  unfold Math_round.
  pose proof (Qfloor_le (x + (1 # 2))) as Hle.
  pose proof (Qlt_floor (x + (1 # 2))) as Hlt.
  rewrite inject_Z_plus in Hlt.
  set (n := inject_Z (Qfloor (x + (1 # 2)))) in *.
  change (inject_Z 1) with 1%Q in Hlt.
  split; lra.
Qed.

Lemma Math_round_percentage (x : Q) :
  (0 <= x)%Q -> (x <= 100)%Q -> (0 <= Math_round x <= 100)%Z.
Proof.
  intros Hlo Hhi. unfold Math_round. split.
  - change 0%Z with (Qfloor (1 # 2)). apply Qfloor_resp_le. lra.
  - change 100%Z with (Qfloor (201 # 2)). apply Qfloor_resp_le. lra.
Qed.

(** X14. The services rows appear exactly when the services object has
    at least one key, whichever it is, and are then always the same
    three rows; a missing or empty [slam] or [nav2] reads 'unknown', and
    anything but [is_charging:true] reads 'Not Charging'. The percentage
    is appended exactly when [battery_soc] is present, whatever the
    charging label; for a [battery_soc] between 0 and 100 it is the
    nearest whole number, a half rounded up, and again between 0 and
    100. *)
Theorem services_rows (sv : Services) :
  (servicesRows (Some sv) = [] <-> keyCount sv = 0%nat) /\
  (keyCount sv <> 0%nat ->
     servicesRows (Some sv) =
       [("SLAM Status", or_else (slam sv) "unknown");
        ("Nav2 Status", or_else (nav2 sv) "unknown");
        ("Charging Status", chargingText sv)]) /\
  (slam sv = None \/ slam sv = Some "" ->
     or_else (slam sv) "unknown" = "unknown") /\
  (nav2 sv = None \/ nav2 sv = Some "" ->
     or_else (nav2 sv) "unknown" = "unknown") /\
  (battery_soc sv = None ->
     chargingText sv =
       if match is_charging sv with Some true => true | _ => false end
       then "Charging" else "Not Charging") /\
  (forall soc,
     battery_soc sv = Some soc -> (0 <= soc)%Q -> (soc <= 100)%Q ->
     exists n,
       (0 <= n <= 100)%Z /\
       (inject_Z n - (1 # 2) <= soc)%Q /\ (soc < inject_Z n + (1 # 2))%Q /\
       chargingText sv =
         (if match is_charging sv with Some true => true | _ => false end
          then "Charging" else "Not Charging")
         ++ " (" ++ decimal n ++ "%)").
Proof.
  split; [| split; [| split; [| split; [| split]]]].
  - unfold servicesRows. destruct (keyCount sv) as [| k]; cbn.
    + split; reflexivity.
    + split; discriminate.
  - intro Hk. unfold servicesRows.
    destruct (keyCount sv) as [| k]; [contradiction | reflexivity].
  - intros [-> | ->]; reflexivity.
  - intros [-> | ->]; reflexivity.
  - intro Hnone. unfold chargingText. rewrite Hnone.
    destruct (is_charging sv) as [[] |]; reflexivity.
  - intros soc Hsoc Hlo Hhi. exists (Math_round soc).
    split; [now apply Math_round_percentage |].
    split; [apply Math_round_nearest |].
    split; [apply Math_round_nearest |].
    unfold chargingText. rewrite Hsoc.
    destruct (is_charging sv) as [[] |]; reflexivity.
Qed.

Lemma services_rows_witness :
  exists n,
    (0 <= n <= 100)%Z /\
    chargingText (mkServices None None (Some true) (Some (169 # 2)) 0) =
    "Charging (" ++ decimal n ++ "%)".
Proof.
  destruct (services_rows (mkServices None None (Some true) (Some (169 # 2)) 0))
    as (_ & _ & _ & _ & _ & H).
  destruct (H (169 # 2) eq_refl) as (n & Hn & _ & _ & Htext).
  - discriminate.
  - discriminate.
  - exists n. split; [exact Hn | exact Htext].
Defined.

End ServicesExtra.
